(** * yumdeps: the package/dependency model, the line classifiers, the
      parsers and the reports of [yumdeps.py]

    A shallow embedding of [src/yumdeps.py].

    - Python [str] values are [string]s; a character is a code point below
      256.  [PyStr] holds the few [str] methods the program calls.
    - The two dictionaries of a [PkgDep] object are finite maps keyed by
      strings.  Every iteration over a dictionary in the program goes through
      [sorted], so the insertion order of a Python dictionary is never
      observed and a [gmap] carries all the information the program reads.
    - Exceptions, the records handed to [logging], the lines written by
      [print] and the mutation of the one [PkgDep] instance are explicit: a
      computation is a function from the object to a [Run]. *)

From Stdlib Require Import Ascii String.
From stdpp Require Import base option list gmap strings fin_maps sorting pretty.

Local Open Scope string_scope.
Local Open Scope list_scope.

(** ** Python strings *)

Module PyStr.

(** [str.isspace] on one character, for code points below 256: the
    separators U+0009..U+000D and U+001C..U+0020, U+0085 and U+00A0. *)
Definition isspace (c : ascii) : bool :=
  let n := nat_of_ascii c in
  ((9 <=? n) && (n <=? 13) || (28 <=? n) && (n <=? 32)
   || (n =? 133) || (n =? 160))%nat.

Fixpoint lstrip (s : string) : string :=
  match s with
  | EmptyString => EmptyString
  | String c s' => if isspace c then lstrip s' else s
  end.

Fixpoint rstrip (s : string) : string :=
  match s with
  | EmptyString => EmptyString
  | String c s' =>
      match rstrip s' with
      | EmptyString => if isspace c then EmptyString else String c EmptyString
      | r => String c r
      end
  end.

(** [s.strip()] *)
Definition strip (s : string) : string := rstrip (lstrip s).

(** [s.split(sep)] for a one-character separator: the pieces between the
    occurrences of [sep]; never the empty list. *)
Fixpoint split (sep : ascii) (s : string) : list string :=
  match s with
  | EmptyString => [EmptyString]
  | String c s' =>
      if Ascii.eqb c sep then EmptyString :: split sep s'
      else match split sep s' with
           | w :: ws => String c w :: ws
           | [] => [String c EmptyString]
           end
  end.

(** [s.split()]: the maximal runs of non-space characters. *)
Fixpoint split_whitespace (s : string) : list string :=
  match s with
  | EmptyString => []
  | String c s' =>
      if isspace c then split_whitespace s'
      else match s' with
           | EmptyString => [String c EmptyString]
           | String c' _ =>
               if isspace c' then String c EmptyString :: split_whitespace s'
               else match split_whitespace s' with
                    | w :: ws => String c w :: ws
                    | [] => [String c EmptyString]
                    end
           end
  end.

(** [s.replace(old, new)] for one-character [old] and [new]. *)
Fixpoint replace (old new : ascii) (s : string) : string :=
  match s with
  | EmptyString => EmptyString
  | String c s' =>
      String (if Ascii.eqb c old then new else c) (replace old new s')
  end.

(** [c in s] *)
Fixpoint contains (c : ascii) (s : string) : bool :=
  match s with
  | EmptyString => false
  | String c' s' => Ascii.eqb c' c || contains c s'
  end.

(** [sorted(keys)]: strings compare by code point, lexicographically.  The
    keys of a dictionary are distinct and the order is total, so any sorting
    algorithm returns the list that Python's does. *)
Definition sorted (l : list string) : list string := merge_sort String.le l.

(** [s1 < s2] *)
Definition lt (s1 s2 : string) : Prop := String.ltb s1 s2 = true.

End PyStr.

(** ** Exceptions *)

Inductive exn : Type :=
| ValueError (msg : string)
| IndexError
| TypeError.

Inductive result (A : Type) : Type :=
| Ok (a : A)
| Err (e : exn).
Arguments Ok {A} a.
Arguments Err {A} e.

#[global] Instance exn_eq_dec : EqDecision exn.
Proof. solve_decision. Defined.

#[global] Instance result_eq_dec {A} `{EqDecision A} : EqDecision (result A).
Proof. solve_decision. Defined.

#[global] Instance result_ret : MRet result := fun _ a => Ok a.
#[global] Instance result_bind : MBind result := fun _ _ f m =>
  match m with
  | Ok a => f a
  | Err e => Err e
  end.

(** [l[i]] for a non-negative index. *)
Definition index {A} (l : list A) (i : nat) : result A :=
  match l !! i with
  | Some x => Ok x
  | None => Err IndexError
  end.

(** ** Constants of the module *)

Definition KEY_NAME := "Name".
Definition KEY_ARCH := "Arch".
Definition KEY_VERSION := "Version".
Definition KEY_RELEASE := "Release".
Definition KEY_REPOSITORY := "Repo".
Definition KEY_SUMMARY := "Summary".
Definition KEY_INFO_LIST : list string :=
  [KEY_NAME; KEY_ARCH; KEY_VERSION; KEY_RELEASE; KEY_REPOSITORY; KEY_SUMMARY].

Definition KEY_PACKAGE := "package:".
Definition KEY_DEPENDENCY := "dependency:".
Definition KEY_PROVIDER := "provider:".

Definition UNDEFINED := "undefined".

(** ** Line classifiers *)

(** [split_info_line]: the tuple the function returns, [None] for Python's
    [None]; a match is [(Some key, Some value)]. *)
Definition split_info_line (line : string)
  : result (option string * option string) :=
  let words := PyStr.split ":" line in
  w0 ← index words 0;
  let key := PyStr.strip w0 in
  if bool_decide (key ∈ KEY_INFO_LIST) then
    w1 ← index words 1;
    mret (Some key, Some (PyStr.strip w1))
  else mret (None, None).

(** [split_dep_line]: always a triple when it returns. *)
Definition split_dep_line (line : string)
  : result (option string * option string * option string) :=
  let words := PyStr.split_whitespace line in
  w0 ← index words 0;
  let key := PyStr.strip w0 in
  if bool_decide (key = KEY_PACKAGE) then
    w1 ← index words 1;
    w2 ← index words 2;
    mret (Some key, Some (PyStr.strip w1), Some (PyStr.strip w2))
  else if bool_decide (key = KEY_DEPENDENCY) then
    w1 ← index words 1;
    mret (Some key, Some (PyStr.strip w1), None)
  else if bool_decide (key = KEY_PROVIDER) then
    w1 ← index words 1;
    w2 ← index words 2;
    mret (Some key, Some (PyStr.strip w1), Some (PyStr.strip w2))
  else mret (None, None, None).

(** ** The [PkgDep] object *)

(** An entry of the [pkg] dictionary: the five fields stored under the keys
    [KEY_ARCH], [KEY_VERSION], [KEY_RELEASE], [KEY_REPOSITORY] and
    [KEY_SUMMARY]. *)
Record PkgInfo : Type := MkPkgInfo {
  arch : string;
  version : string;
  release : string;
  repository : string;
  summary : string
}.

(** A provider is the tuple [(provider, version)]. *)
Abbreviation Provider := (string * string)%type.

Record PkgDep : Type := MkPkgDep {
  pkg : gmap string PkgInfo;
  dep : gmap string (gmap string (list Provider))
}.

#[global] Instance PkgInfo_eq_dec : EqDecision PkgInfo.
Proof. solve_decision. Defined.

#[global] Instance PkgDep_eq_dec : EqDecision PkgDep.
Proof. solve_decision. Defined.

(** [PkgDep()] *)
Definition PkgDep_init : PkgDep := MkPkgDep ∅ ∅.

(** ** Computations on the object *)

Inductive level : Type := DEBUG | WARNING.

(** What a computation leaves behind besides the object: the records handed
    to [logging] and the lines written by [print], in program order. *)
Inductive event : Type :=
| Log (lv : level) (msg : string)
| Print (line : string).

#[global] Instance level_eq_dec : EqDecision level.
Proof. solve_decision. Defined.

#[global] Instance event_eq_dec : EqDecision event.
Proof. solve_decision. Defined.

Record Run (A : Type) : Type := MkRun {
  state : PkgDep;
  trace : list event;
  outcome : result A
}.
Arguments MkRun {A} state trace outcome.
Arguments state {A} r.
Arguments trace {A} r.
Arguments outcome {A} r.

Definition M (A : Type) : Type := PkgDep → Run A.

Definition ret {A} (a : A) : M A := fun self => MkRun self [] (Ok a).

Definition bind {A B} (m : M A) (k : A → M B) : M B := fun self =>
  let r := m self in
  match outcome r with
  | Ok a =>
      let r' := k a (state r) in
      MkRun (state r') (trace r ++ trace r') (outcome r')
  | Err e => MkRun (state r) (trace r) (Err e)
  end.

Declare Scope pkgdep_scope.
Delimit Scope pkgdep_scope with M.
Notation "x <- m ;; k" := (bind m (fun x => k))
  (at level 100, m at next level, right associativity) : pkgdep_scope.
Notation "m ;; k" := (bind m (fun _ => k))
  (at level 100, right associativity) : pkgdep_scope.

(** [raise e] *)
Definition raise {A} (e : exn) : M A := fun self => MkRun self [] (Err e).

(** A value or an exception computed without touching the object. *)
Definition lift {A} (r : result A) : M A := fun self => MkRun self [] r.

(** A read-only method of the object. *)
Definition query {A} (q : PkgDep → result A) : M A := fun self =>
  MkRun self [] (q self).

Definition get_self : M PkgDep := fun self => MkRun self [] (Ok self).
Definition set_self (self' : PkgDep) : M unit := fun _ => MkRun self' [] (Ok tt).

(** [logging.debug(msg)], [logging.warning(msg)] *)
Definition logging (lv : level) (msg : string) : M unit := fun self =>
  MkRun self [Log lv msg] (Ok tt).

(** [print(line)] *)
Definition print (line : string) : M unit := fun self =>
  MkRun self [Print line] (Ok tt).

(** [for x in l: body(x)] *)
Fixpoint for_each {A} (l : list A) (body : A → M unit) : M unit :=
  match l with
  | [] => ret tt
  | x :: l' => (body x ;; for_each l' body)%M
  end.

(** [for x in l: vars = body(x, vars)], for a loop that assigns local
    variables. *)
Fixpoint for_fold {A V} (l : list A) (body : A → V → M V) (vars : V) : M V :=
  match l with
  | [] => ret vars
  | x :: l' => (vars' <- body x vars ;; for_fold l' body vars')%M
  end.

(** ** Methods of [PkgDep] *)

Section Methods.
Local Open Scope pkgdep_scope.

Definition add_package (pkg_name arch version release repository summary : string)
  : M unit :=
  logging DEBUG ("add_package " +:+ pkg_name) ;;
  self <- get_self ;;
  if bool_decide (pkg self !! pkg_name = None) then
    set_self
      (MkPkgDep
         (<[pkg_name := MkPkgInfo arch version release repository summary]>
            (pkg self))
         (<[pkg_name := ∅]> (dep self)))
  else
    logging WARNING ("package " +:+ pkg_name +:+ " already exists, ignored").

Definition add_dependency (pkg_name dep_name : string) : M unit :=
  logging DEBUG ("add_dependency " +:+ pkg_name +:+ " " +:+ dep_name) ;;
  self <- get_self ;;
  match dep self !! pkg_name with
  | Some deps =>
      if bool_decide (deps !! dep_name = None) then
        set_self
          (MkPkgDep (pkg self)
             (<[pkg_name := <[dep_name := []]> deps]> (dep self)))
      else
        logging WARNING ("dependency " +:+ dep_name
                         +:+ " already exists for package " +:+ pkg_name)
  | None =>
      set_self
        (MkPkgDep (pkg self) (<[pkg_name := {[dep_name := []]}]> (dep self)))
  end.

Definition add_provider (pkg_name dep_name provider version : string)
  : M unit :=
  self <- get_self ;;
  match dep self !! pkg_name with
  | Some deps =>
      match deps !! dep_name with
      | Some providers =>
          set_self
            (MkPkgDep (pkg self)
               (<[pkg_name :=
                    <[dep_name := providers ++ [(provider, version)]]> deps]>
                  (dep self))) ;;
          logging DEBUG ("adding provider " +:+ provider)
      | None =>
          raise (ValueError ("dependency " +:+ dep_name +:+ " for package "
                             +:+ pkg_name +:+ " does not exist"))
      end
  | None =>
      raise (ValueError ("package " +:+ pkg_name +:+ " does not exist"))
  end.

End Methods.

(** The accessors read one field of a package, or raise. *)
Definition get_field (field : PkgInfo → string) (self : PkgDep)
    (pkg_name : string) : result string :=
  match pkg self !! pkg_name with
  | Some info => Ok (field info)
  | None => Err (ValueError ("package " +:+ pkg_name +:+ " does not exist"))
  end.

Definition get_arch := get_field arch.
Definition get_version := get_field version.
Definition get_release := get_field release.
Definition get_repository := get_field repository.
Definition get_summary := get_field summary.

Definition get_dependency_list (self : PkgDep) (pkg_name : string)
  : result (list string) :=
  match dep self !! pkg_name with
  | Some deps => Ok (PyStr.sorted (fst <$> map_to_list deps))
  | None => Err (ValueError ("package " +:+ pkg_name +:+ " does not exist"))
  end.

(** The two messages are the source's: the one for a missing dependency
    names the package and the one for a missing package names the
    dependency. *)
Definition get_provider_list (self : PkgDep) (pkg_name dep_name : string)
  : result (list Provider) :=
  match dep self !! pkg_name with
  | Some deps =>
      match deps !! dep_name with
      | Some providers => Ok providers
      | None => Err (ValueError ("package " +:+ pkg_name +:+ " does not exist"))
      end
  | None =>
      Err (ValueError ("dependency " +:+ dep_name +:+ " for package "
                       +:+ pkg_name +:+ " does not exist"))
  end.

Definition internal_package (self : PkgDep) (pkg_name : string) : bool :=
  bool_decide (is_Some (pkg self !! pkg_name)).

(** The loop of [internal_dependency]: [found] is set and the loop left at
    the first provider that is an internal package. *)
Fixpoint internal_dependency_loop (self : PkgDep) (providers : list Provider)
    (found : bool) : bool :=
  match providers with
  | [] => found
  | (p_name, p_version) :: providers' =>
      if internal_package self p_name then true
      else internal_dependency_loop self providers' found
  end.

Definition internal_dependency (self : PkgDep) (pkg_name dep_name : string)
  : result bool :=
  providers ← get_provider_list self pkg_name dep_name;
  mret (internal_dependency_loop self providers false).

Definition dependency_count (self : PkgDep) (pkg_name : string) : result nat :=
  match dep self !! pkg_name with
  | Some deps => Ok (size deps)
  | None => Err (ValueError ("package " +:+ pkg_name +:+ " does not exist"))
  end.

Definition provider_count (self : PkgDep) (pkg_name dep_name : string)
  : result nat :=
  match dep self !! pkg_name with
  | Some deps =>
      match deps !! dep_name with
      | Some providers => Ok (length providers)
      | None => Err (ValueError ("package " +:+ pkg_name +:+ " does not exist"))
      end
  | None =>
      Err (ValueError ("dependency " +:+ dep_name +:+ " for package "
                       +:+ pkg_name +:+ " does not exist"))
  end.

(** ** The effective dependency list *)

(** [[d for d in d_list if cond(d)]] where [cond] may raise. *)
Fixpoint filter_raising {A} (cond : A → result bool) (l : list A)
  : result (list A) :=
  match l with
  | [] => Ok []
  | d :: l' =>
      b ← cond d;
      rest ← filter_raising cond l';
      mret (if b : bool then d :: rest else rest)
  end.

Definition get_dep_list (dep : PkgDep) (pkg_name : string) (include_all : bool)
  : result (list string) :=
  d_list ← get_dependency_list dep pkg_name;
  if negb include_all then
    filter_raising (internal_dependency dep pkg_name) d_list
  else mret d_list.

(** ** The info-file parser *)

(** The local variables of [parse_info_file]. *)
Record InfoVars : Type := MkInfoVars {
  pkg_name : string;
  pkg_arch : string;
  pkg_version : string;
  pkg_release : string;
  pkg_repository : string;
  pkg_summary : string
}.

#[global] Instance InfoVars_eq_dec : EqDecision InfoVars.
Proof. solve_decision. Defined.

Definition InfoVars_init : InfoVars :=
  MkInfoVars UNDEFINED UNDEFINED UNDEFINED UNDEFINED UNDEFINED UNDEFINED.

(** ['literal' + name]: a [TypeError] when [name] is [None]. *)
Definition str_add (literal : string) (name : option string) : result string :=
  match name with
  | Some name => Ok (literal +:+ name)
  | None => Err TypeError
  end.

Section Parsers.
Local Open Scope pkgdep_scope.

(** The call that hands the pending record to the model. *)
Definition flush (v : InfoVars) : M unit :=
  add_package (pkg_name v +:+ "." +:+ pkg_arch v) (pkg_arch v)
    (pkg_version v) (pkg_release v) (pkg_repository v) (pkg_summary v).

(** A branch [logging.debug(literal + name); var = name]. *)
Definition found (literal : string) (name : option string)
    (assign : string → InfoVars) : M InfoVars :=
  msg <- lift (str_add literal name) ;;
  logging DEBUG msg ;;
  ret (assign (default EmptyString name)).

(** The body of the loop of [parse_info_file]. *)
Definition parse_info_line (line : string) (v : InfoVars) : M InfoVars :=
  kn <- lift (split_info_line line) ;;
  let '(key, name) := kn in
  if bool_decide (key = Some KEY_NAME) then
    msg <- lift (str_add "found package " name) ;;
    logging DEBUG msg ;;
    (if bool_decide (pkg_name v ≠ UNDEFINED) then flush v else ret tt) ;;
    ret (MkInfoVars (default EmptyString name)
           UNDEFINED UNDEFINED UNDEFINED UNDEFINED UNDEFINED)
  else if bool_decide (key = Some KEY_VERSION) then
    found "  found version " name (fun name =>
      MkInfoVars (pkg_name v) (pkg_arch v) name (pkg_release v)
        (pkg_repository v) (pkg_summary v))
  else if bool_decide (key = Some KEY_RELEASE) then
    found "  found release " name (fun name =>
      MkInfoVars (pkg_name v) (pkg_arch v) (pkg_version v) name
        (pkg_repository v) (pkg_summary v))
  else if bool_decide (key = Some KEY_ARCH) then
    found "  found arch " name (fun name =>
      MkInfoVars (pkg_name v) name (pkg_version v) (pkg_release v)
        (pkg_repository v) (pkg_summary v))
  else if bool_decide (key = Some KEY_REPOSITORY) then
    found "  found repo " name (fun name =>
      MkInfoVars (pkg_name v) (pkg_arch v) (pkg_version v) (pkg_release v)
        name (pkg_summary v))
  else if bool_decide (key = Some KEY_SUMMARY) then
    found "  found summary " name (fun name =>
      MkInfoVars (pkg_name v) (pkg_arch v) (pkg_version v) (pkg_release v)
        (pkg_repository v) name)
  else ret v.

(** [parse_info_file(f, dep)]: [f] is the sequence of lines the file
    yields, [dep] the object the computation runs on. *)
Definition parse_info_file (f : list string) : M unit :=
  v <- for_fold f parse_info_line InfoVars_init ;;
  flush v.

(** The local variables of [parse_dep_file]. *)
Record DepVars : Type := MkDepVars {
  cur_pkg_name : string;
  cur_dep_name : string
}.

Definition parse_dep_line (line : string) (v : DepVars) : M DepVars :=
  knv <- lift (split_dep_line line) ;;
  let '(key, name, version) := knv in
  if bool_decide (key = Some KEY_PACKAGE) then
    m1 <- lift (str_add "found package " name) ;;
    m2 <- lift (str_add (m1 +:+ " ") name) ;;
    logging DEBUG m2 ;;
    ret (MkDepVars (default EmptyString name) (cur_dep_name v))
  else if bool_decide (key = Some KEY_DEPENDENCY) then
    msg <- lift (str_add "  found dependency " name) ;;
    logging DEBUG msg ;;
    add_dependency (cur_pkg_name v) (default EmptyString name) ;;
    ret (MkDepVars (cur_pkg_name v) (default EmptyString name))
  else if bool_decide (key = Some KEY_PROVIDER) then
    m1 <- lift (str_add ("    found provider " +:+ cur_pkg_name v +:+ " "
                         +:+ cur_dep_name v +:+ " ") name) ;;
    m2 <- lift (str_add (m1 +:+ " ") version) ;;
    logging DEBUG m2 ;;
    add_provider (cur_pkg_name v) (cur_dep_name v)
      (default EmptyString name) (default EmptyString version) ;;
    ret v
  else ret v.

Definition parse_dep_file (f : list string) : M unit :=
  for_fold f parse_dep_line (MkDepVars UNDEFINED UNDEFINED) ;;
  ret tt.

(** [parse_files], on the lines of the two files. *)
Definition parse_files (f_info f_dep : list string) : Run unit :=
  (parse_info_file f_info ;; parse_dep_file f_dep) PkgDep_init.

End Parsers.

(** ** The csv renderer *)

Definition csv_header : string :=
  "Package name,Version,Release,Architecture,Repository,Summary,Dependency,Providers... (*) internal provider".

Section Renderers.
Local Open Scope pkgdep_scope.

(** ['{},{},{},{},{},{}'.format(...)]; the arguments are evaluated from
    left to right. *)
Definition csv_pkg_line (dep : PkgDep) (pkg_name : string) : result string :=
  v ← get_version dep pkg_name;
  r ← get_release dep pkg_name;
  a ← get_arch dep pkg_name;
  p ← get_repository dep pkg_name;
  s ← get_summary dep pkg_name;
  mret (pkg_name +:+ "," +:+ v +:+ "," +:+ r +:+ "," +:+ a +:+ "," +:+ p
        +:+ "," +:+ PyStr.replace "," " " s).

(** The inner loop over the providers of one dependency. *)
Definition csv_providers (dep : PkgDep) (line : string)
    (providers : list Provider) : string :=
  fold_left (fun line '(p_name, p_version) =>
               let flag := if internal_package dep p_name then ",(*)" else "," in
               line +:+ "," +:+ p_name +:+ "," +:+ p_version +:+ flag)
    providers line.

(** The body of the loop over the packages. *)
Definition csv_package (print_all : bool) (pkg_name : string) : M unit :=
  pkg_line <- query (fun dep => csv_pkg_line dep pkg_name) ;;
  dep_list <- query (fun dep => get_dep_list dep pkg_name print_all) ;;
  if bool_decide (length dep_list = 0) then
    print (pkg_line +:+ ",---")
  else
    for_each dep_list (fun dep_name =>
      providers <- query (fun dep => get_provider_list dep pkg_name dep_name) ;;
      dep <- get_self ;;
      print (csv_providers dep (pkg_line +:+ "," +:+ dep_name) providers)).

Definition output_csv (print_all : bool) : M unit :=
  print csv_header ;;
  dep <- get_self ;;
  for_each (PyStr.sorted (fst <$> map_to_list (pkg dep)))
    (csv_package print_all).

End Renderers.

(** ** What the info-file parser has accumulated *)

(** A line that the classifier accepts and that does not start a record. *)
Definition field_line (line : string) : bool :=
  match split_info_line line with
  | Ok (key, _) => bool_decide (key ≠ Some KEY_NAME)
  | Err _ => false
  end.

(** A line classified under the keyword [key]. *)
Definition carries (key line : string) : bool :=
  match split_info_line line with
  | Ok (Some k, _) => bool_decide (k = key)
  | _ => false
  end.

(** The value of the last line of [f] that carries the keyword [key], and
    [default] when [f] has no such line. *)
Fixpoint last_value (key : string) (f : list string) (default : string)
  : string :=
  match f with
  | [] => default
  | line :: f' =>
      last_value key f'
        (match split_info_line line with
         | Ok (Some k, Some v) => if bool_decide (k = key) then v else default
         | _ => default
         end)
  end.

(** The record pending after the lines [f], none of which starts a record,
    have been read on top of [v]. *)
Definition accumulate (f : list string) (v : InfoVars) : InfoVars :=
  MkInfoVars (pkg_name v)
    (last_value KEY_ARCH f (pkg_arch v))
    (last_value KEY_VERSION f (pkg_version v))
    (last_value KEY_RELEASE f (pkg_release v))
    (last_value KEY_REPOSITORY f (pkg_repository v))
    (last_value KEY_SUMMARY f (pkg_summary v)).

(** The debug records of the field branches: ['  found version ...'] and
    the like. *)
Definition found_record (e : event) : Prop :=
  ∃ msg, e = Log DEBUG ("  found " +:+ msg).

(** ** The invariant of the object *)

(** Every package has an entry in the dependency map. *)
Definition entries (self : PkgDep) : Prop := dom (pkg self) ⊆ dom (dep self).

(** A computation that keeps a property of the object, also when it
    raises. *)
Definition preserves {A} (I : PkgDep → Prop) (m : M A) : Prop :=
  ∀ self, I self → I (state (m self)).

(** A computation that returns normally and leaves the object as it was. *)
Definition succeeds (m : M unit) (self : PkgDep) : Prop :=
  state (m self) = self ∧ outcome (m self) = Ok tt.

(** ** Words without white space *)

(** [all(p(c) for c in s)] *)
Fixpoint all_chars (p : ascii → bool) (s : string) : bool :=
  match s with
  | EmptyString => true
  | String c s' => p c && all_chars p s'
  end.

(** A non-empty string without any white space. *)
Definition token (w : string) : Prop :=
  w ≠ "" ∧ all_chars (fun c => negb (PyStr.isspace c)) w = true.

(** A string that is empty or starts with a character that is no space. *)
Definition starts_clean (s : string) : Prop :=
  match s with
  | EmptyString => True
  | String c _ => PyStr.isspace c = false
  end.

(** ** Counting the lines of a report *)

(** The effective dependency list of a package, empty when it cannot be
    read. *)
Definition effective (self : PkgDep) (print_all : bool) (key : string)
  : list string :=
  match get_dep_list self key print_all with
  | Ok d_list => d_list
  | Err _ => []
  end.

(** The providers of a dependency, none when they cannot be read. *)
Definition providers_of (self : PkgDep) (key d : string) : list Provider :=
  match get_provider_list self key d with
  | Ok providers => providers
  | Err _ => []
  end.

(** ** The other reports *)

(** [s * n] *)
Fixpoint str_mul (s : string) (n : nat) : string :=
  match n with
  | 0 => EmptyString
  | S n' => s +:+ str_mul s n'
  end.

(** [str(n)] for a number that is not negative. *)
Definition str (n : nat) : string := pretty n.

(** The double quote character of the wiki markup, code point 34. *)
Definition dquote : string := String "034" EmptyString.

Definition INTERNAL := "internal".

(** [d[k]] for a dictionary of numbers, at a key that the code has assigned
    before it reads it (see [wiki_row_span_dom]); 0 stands for the
    [KeyError] that cannot occur. *)
Definition item (d : gmap string nat) (k : string) : nat := default 0 (d !! k).

(** [try: r except ValueError: handler] *)
Definition except_ValueError {A} (r : result A) (handler : A) : result A :=
  match r with
  | Ok a => Ok a
  | Err (ValueError _) => Ok handler
  | Err e => Err e
  end.

Section Reports.
Local Open Scope pkgdep_scope.

(** ['Package {} [{}] [{}] [{}] [{}] [{}]'.format(...)] *)
Definition text_pkg_line (dep : PkgDep) (pkg_name : string) : result string :=
  v ← get_version dep pkg_name;
  r ← get_release dep pkg_name;
  a ← get_arch dep pkg_name;
  p ← get_repository dep pkg_name;
  s ← get_summary dep pkg_name;
  mret ("Package " +:+ pkg_name +:+ " [" +:+ v +:+ "] [" +:+ r +:+ "] ["
        +:+ a +:+ "] [" +:+ p +:+ "] [" +:+ s +:+ "]").

(** [PkgDep.package_count] *)
Definition package_count : M nat :=
  self <- get_self ;;
  for_each (PyStr.sorted (fst <$> map_to_list (pkg self))) print ;;
  ret (size (pkg self)).

(** [PkgDep.print_packages_and_dependencies] *)
Definition print_packages_and_dependencies : M unit :=
  print (String "010" EmptyString +:+ str_mul "-" 80) ;;
  self <- get_self ;;
  for_each (PyStr.sorted (fst <$> map_to_list (pkg self))) (fun pkg_name =>
    line <- query (fun self => text_pkg_line self pkg_name) ;;
    print line ;;
    d_list <- query (fun self => get_dependency_list self pkg_name) ;;
    for_each d_list (fun dep_name =>
      print (str_mul " " 2 +:+ dep_name) ;;
      providers <- query (fun self => get_provider_list self pkg_name dep_name) ;;
      for_each providers (fun '(p_name, p_version) =>
        self <- get_self ;;
        let flag := if internal_package self p_name then " yes" else " no" in
        print (str_mul " " 4 +:+ "[" +:+ p_name +:+ ", " +:+ p_version
               +:+ "]" +:+ flag)))).

(** The body of the loop of [output_text] over the packages. *)
Definition text_package (print_all : bool) (pkg_name : string) : M unit :=
  line <- query (fun dep => text_pkg_line dep pkg_name) ;;
  print line ;;
  dep_list <- query (fun dep => get_dep_list dep pkg_name print_all) ;;
  if bool_decide (length dep_list = 0) then ret tt
  else
    for_each dep_list (fun dep_name =>
      print (str_mul " " 2 +:+ dep_name) ;;
      providers <- query (fun dep => get_provider_list dep pkg_name dep_name) ;;
      for_each providers (fun '(p_name, p_version) =>
        dep <- get_self ;;
        let flag :=
          if internal_package dep p_name then " " +:+ INTERNAL else "" in
        print (str_mul " " 4 +:+ "[" +:+ p_name +:+ ", " +:+ p_version
               +:+ "]" +:+ flag))).

Definition output_text (print_all : bool) : M unit :=
  dep <- get_self ;;
  for_each (PyStr.sorted (fst <$> map_to_list (pkg dep)))
    (text_package print_all).

(** The first loop of [output_wiki]: the number of rows of each package. *)
Definition wiki_row_span_package (print_all : bool) (pkg_name : string)
    (row_span : gmap string nat) : M (gmap string nat) :=
  let row_span := <[pkg_name := 0]> row_span in
  dep_list <- query (fun dep => get_dep_list dep pkg_name print_all) ;;
  row_span <-
    for_fold dep_list (fun dep_name row_span =>
      c <- query (fun dep => provider_count dep pkg_name dep_name) ;;
      ret (<[pkg_name := item row_span pkg_name + c]> row_span)) row_span ;;
  ret (<[pkg_name := item row_span pkg_name `max` 1]> row_span).

Definition wiki_row_span (print_all : bool) : M (gmap string nat) :=
  dep <- get_self ;;
  for_fold (PyStr.sorted (fst <$> map_to_list (pkg dep)))
    (wiki_row_span_package print_all) ∅.

(** The rows of one provider. *)
Definition wiki_provider (provider : Provider) : M unit :=
  let '(p_name, p_version) := provider in
  p_repository <-
    query (fun dep => except_ValueError (get_repository dep p_name) "") ;;
  dep <- get_self ;;
  let p_name :=
    if internal_package dep p_name
    then "[[#" +:+ p_name +:+ "|" +:+ p_name +:+ "]]"
    else p_name in
  print ("| " +:+ p_name) ;;
  print ("| " +:+ p_version) ;;
  print ("| " +:+ p_repository) ;;
  print "|-".

(** The body of the second loop of [output_wiki]. *)
Definition wiki_package (print_all : bool) (row_span : gmap string nat)
    (pkg_name : string) (pkg_count : nat) : M nat :=
  let span :=
    "| rowspan=" +:+ dquote +:+ str (item row_span pkg_name) +:+ dquote
    +:+ " | " in
  print (span +:+ str pkg_count) ;;
  print (span +:+ "<span id=" +:+ dquote +:+ pkg_name +:+ dquote +:+ ">"
         +:+ pkg_name +:+ "</span>") ;;
  v <- query (fun dep => get_version dep pkg_name) ;;
  print (span +:+ v) ;;
  r <- query (fun dep => get_repository dep pkg_name) ;;
  print (span +:+ r) ;;
  let pkg_count := pkg_count + 1 in
  dep_list <- query (fun dep => get_dep_list dep pkg_name print_all) ;;
  if bool_decide (length dep_list = 0) then
    print "| ---" ;; print "| ---" ;; print "| ---" ;; print "| ---" ;;
    print "|-" ;;
    ret pkg_count
  else
    for_each dep_list (fun dep_name =>
      c <- query (fun dep => provider_count dep pkg_name dep_name) ;;
      print ("| rowspan=" +:+ dquote +:+ str c +:+ dquote +:+ " | "
             +:+ dep_name) ;;
      providers <- query (fun dep => get_provider_list dep pkg_name dep_name) ;;
      for_each providers wiki_provider) ;;
    ret pkg_count.

Definition output_wiki (print_all : bool) : M unit :=
  print ("{| class=" +:+ dquote +:+ "wikitable" +:+ dquote) ;;
  print "! # || Package || Version|| Repository || Dependency || Provider || Version || Repository" ;;
  print "|-" ;;
  row_span <- wiki_row_span print_all ;;
  dep <- get_self ;;
  for_fold (PyStr.sorted (fst <$> map_to_list (pkg dep)))
    (wiki_package print_all row_span) 1 ;;
  print "|}".

End Reports.

(** The number of rows that the provider loops of a package print. *)
Definition provider_rows (self : PkgDep) (print_all : bool) (key : string)
  : nat :=
  sum_list ((fun d => length (providers_of self key d))
              <$> effective self print_all key).

(** The number of row terminators among the events. *)
Definition rows_ended (t : list event) : nat :=
  length (filter (fun e => e = Print "|-") t).

(** A computation that returns [a] normally, leaves the object as it was
    and leaves the events [t]. *)
Definition emits {A} (m : M A) (self : PkgDep) (t : list event) (a : A)
  : Prop :=
  m self = MkRun self t (Ok a).

(** ** The records of an info file *)

(** The records that the lines [f] hand to the model, in order, when [v] is
    pending: a [Name] line closes the pending record, unless its name is the
    placeholder, and the end of the input closes the last one. *)
Fixpoint info_records (f : list string) (v : InfoVars) : list InfoVars :=
  match f with
  | [] => [v]
  | line :: f' =>
      if field_line line then info_records f' (accumulate [line] v)
      else
        match split_info_line line with
        | Ok (_, Some name) =>
            (if bool_decide (pkg_name v ≠ UNDEFINED) then [v] else [])
            ++ info_records f'
                 (MkInfoVars name UNDEFINED UNDEFINED UNDEFINED UNDEFINED
                    UNDEFINED)
        | _ => []
        end
  end.

(** A line on which the classifier returns. *)
Definition accepted (line : string) : bool :=
  match split_info_line line with
  | Ok _ => true
  | Err _ => false
  end.

(** ** Example objects *)

(** One package and nothing else. *)
Definition model_foo : PkgDep :=
  state (add_package "foo.x86_64" "x86_64" "1.0" "1" "base" "a tool" PkgDep_init).

(** A dependency file that names a package the info file never described:
    [add_dependency] creates the entry of [bar.i686] in the dependency map. *)
Definition model_orphan : PkgDep :=
  state (bind (add_dependency "bar.i686" "libbaz")
           (fun _ => add_provider "bar.i686" "libbaz" "libbaz.i686" "3")
           model_foo).

(** Two packages; [foo.x86_64] declares [libc] first and [libbar] second.
    [libbar] has a provider that is a package, [libc] has none. *)
Definition model_mixed : PkgDep :=
  state (bind (add_package "bar.i686" "i686" "1" "2" "base" "bar") (fun _ =>
         bind (add_dependency "foo.x86_64" "libc") (fun _ =>
         bind (add_provider "foo.x86_64" "libc" "glibc.x86_64" "2.17") (fun _ =>
         bind (add_dependency "foo.x86_64" "libbar") (fun _ =>
         bind (add_provider "foo.x86_64" "libbar" "libbar.i686" "2.0") (fun _ =>
         add_provider "foo.x86_64" "libbar" "bar.i686" "1")))))
           model_foo).

(** * Properties *)

(** ** Running a computation *)

Ltac run_unfold :=
  unfold bind, ret, raise, lift, query, get_self, set_self, logging, print;
  simpl.

Lemma bind_ok {A B} (m : M A) (k : A → M B) self a :
  outcome (m self) = Ok a →
  bind m k self =
    MkRun (state (k a (state (m self))))
          (trace (m self) ++ trace (k a (state (m self))))
          (outcome (k a (state (m self)))).
Proof. intros H. unfold bind. by rewrite H. Qed.


Lemma Run_eta {A} (r : Run A) : r = MkRun (state r) (trace r) (outcome r).
Proof. by destruct r. Qed.

(** ** The model: [add_package], [add_provider] *)

(** C6: adding a package whose key is already in the package collection
    changes neither dictionary of the object (the attributes stored first and
    the key's dependency entry stay as they are); the call only hands a debug
    record and a warning to the logger. *)
Theorem add_package_existing (self : PkgDep)
    (key a v r rp sm : string) (info : PkgInfo) :
  pkg self !! key = Some info →
  add_package key a v r rp sm self =
    MkRun self
      [Log DEBUG ("add_package " +:+ key);
       Log WARNING ("package " +:+ key +:+ " already exists, ignored")]
      (Ok tt).
Proof.
  intros Hin. unfold add_package. run_unfold.
  rewrite bool_decide_eq_false_2; [done|]. by rewrite Hin.
Qed.

Lemma add_package_existing_witness :
  add_package "foo.x86_64" "i686" "2.0" "7" "extras" "another" model_foo =
    MkRun model_foo
      [Log DEBUG "add_package foo.x86_64";
       Log WARNING "package foo.x86_64 already exists, ignored"]
      (Ok tt).
Proof.
  apply (add_package_existing model_foo "foo.x86_64" "i686" "2.0" "7" "extras"
           "another" (MkPkgInfo "x86_64" "1.0" "1" "base" "a tool")).
  vm_compute. reflexivity.
Defined.

(** C10: when the key is not a package yet but the dependency map already
    has an entry for it, [add_package] replaces that entry by the empty
    mapping: every dependency recorded under the key, with its providers, is
    gone, while the other keys of both dictionaries are untouched. *)
Theorem add_package_resets_dependencies (self : PkgDep)
    (key a v r rp sm : string) (deps : gmap string (list Provider)) :
  pkg self !! key = None →
  dep self !! key = Some deps →
  let self' := state (add_package key a v r rp sm self) in
  outcome (add_package key a v r rp sm self) = Ok tt ∧
  pkg self' !! key = Some (MkPkgInfo a v r rp sm) ∧
  dep self' !! key = Some ∅ ∧
  get_dependency_list self' key = Ok [] ∧
  (∀ d providers, deps !! d = Some providers →
     get_provider_list self key d = Ok providers ∧
     get_provider_list self' key d =
       Err (ValueError ("package " +:+ key +:+ " does not exist"))) ∧
  (∀ k, k ≠ key → pkg self' !! k = pkg self !! k ∧ dep self' !! k = dep self !! k).
Proof.
  intros Hpkg Hdep. unfold add_package. run_unfold.
  rewrite bool_decide_eq_true_2 by done. simpl.
  repeat split.
  - apply lookup_insert_eq.
  - apply lookup_insert_eq.
  - unfold get_dependency_list. simpl. rewrite lookup_insert_eq.
    by rewrite map_to_list_empty.
  - unfold get_provider_list. by rewrite Hdep, H.
  - unfold get_provider_list. simpl. rewrite lookup_insert_eq.
    by rewrite lookup_empty.
  - by apply lookup_insert_ne.
  - by apply lookup_insert_ne.
Qed.

Lemma add_package_resets_dependencies_witness :
  get_provider_list model_orphan "bar.i686" "libbaz" = Ok [("libbaz.i686", "3")] ∧
  get_dependency_list
    (state (add_package "bar.i686" "i686" "1" "2" "base" "bar" model_orphan))
    "bar.i686" = Ok [].
Proof.
  pose proof (add_package_resets_dependencies model_orphan
                "bar.i686" "i686" "1" "2" "base" "bar"
                {[ "libbaz" := [("libbaz.i686", "3")] ]}) as H.
  split; [vm_compute; reflexivity|].
  apply H; vm_compute; reflexivity.
Defined.

(** C5: [add_provider] raises [ValueError] and leaves the object as it was
    when the package has no entry in the dependency map or the dependency was
    not declared under it; otherwise the pair [(provider, version)] is put at
    the end of the provider list of that dependency. *)
Theorem add_provider_spec (self : PkgDep) (key d provider version : string) :
  (dep self !! key = None →
   add_provider key d provider version self =
     MkRun self [] (Err (ValueError ("package " +:+ key +:+ " does not exist")))) ∧
  (∀ deps, dep self !! key = Some deps → deps !! d = None →
   add_provider key d provider version self =
     MkRun self []
       (Err (ValueError ("dependency " +:+ d +:+ " for package " +:+ key
                         +:+ " does not exist")))) ∧
  (∀ deps providers, dep self !! key = Some deps → deps !! d = Some providers →
   add_provider key d provider version self =
     MkRun (MkPkgDep (pkg self)
              (<[key := <[d := providers ++ [(provider, version)]]> deps]>
                 (dep self)))
       [Log DEBUG ("adding provider " +:+ provider)] (Ok tt) ∧
   get_provider_list (state (add_provider key d provider version self)) key d =
     Ok (providers ++ [(provider, version)])).
Proof.
  unfold add_provider. run_unfold. split; [|split].
  - by intros ->.
  - by intros deps -> ->.
  - intros deps providers -> ->. simpl. split; [done|].
    unfold get_provider_list. simpl. by rewrite !lookup_insert_eq.
Qed.

Lemma add_provider_spec_witness :
  add_provider "foo.x86_64" "libbar" "libbar.x86_64" "2.0" PkgDep_init =
    MkRun PkgDep_init [] (Err (ValueError "package foo.x86_64 does not exist")) ∧
  add_provider "foo.x86_64" "libbar" "libbar.x86_64" "2.0" model_foo =
    MkRun model_foo []
      (Err (ValueError "dependency libbar for package foo.x86_64 does not exist")) ∧
  get_provider_list
    (state (add_provider "bar.i686" "libbaz" "libbaz.x86_64" "4" model_orphan))
    "bar.i686" "libbaz" = Ok [("libbaz.i686", "3"); ("libbaz.x86_64", "4")].
Proof.
  destruct (add_provider_spec PkgDep_init
              "foo.x86_64" "libbar" "libbar.x86_64" "2.0") as (Hpkg & _ & _).
  destruct (add_provider_spec model_foo
              "foo.x86_64" "libbar" "libbar.x86_64" "2.0") as (_ & Hdep & _).
  destruct (add_provider_spec model_orphan
              "bar.i686" "libbaz" "libbaz.x86_64" "4") as (_ & _ & Hok).
  split; [|split].
  - apply Hpkg. vm_compute. reflexivity.
  - apply (Hdep ∅); vm_compute; reflexivity.
  - apply (Hok {[ "libbaz" := [("libbaz.i686", "3")] ]} [("libbaz.i686", "3")]);
      vm_compute; reflexivity.
Defined.

(** ** Sorting *)

Lemma le_ne_lt (s1 s2 : string) : String.le s1 s2 → s1 ≠ s2 → PyStr.lt s1 s2.
Proof.
  unfold String.le, PyStr.lt, String.leb, String.ltb. intros Hle Hne.
  destruct (String.compare s1 s2) eqn:Hc; try done.
  by apply String.compare_eq_iff in Hc.
Qed.

Lemma StronglySorted_le_lt (l : list string) :
  StronglySorted String.le l → NoDup l → StronglySorted PyStr.lt l.
Proof.
  induction 1 as [|x l Hl IH Hx]; intros Hnd; [constructor|].
  apply NoDup_cons in Hnd as [Hin Hnd]. constructor; [by apply IH|].
  rewrite Forall_forall in Hx |- *. intros y Hy.
  apply le_ne_lt; [by apply Hx|]. by intros ->.
Qed.

Lemma sorted_Permutation (l : list string) : PyStr.sorted l ≡ₚ l.
Proof. apply merge_sort_Permutation. Qed.

Lemma sorted_ascending (l : list string) :
  NoDup l → StronglySorted PyStr.lt (PyStr.sorted l).
Proof.
  intros Hnd. apply StronglySorted_le_lt.
  - apply (StronglySorted_merge_sort String.le).
  - by rewrite sorted_Permutation.
Qed.

Lemma elem_of_sorted (l : list string) (x : string) : x ∈ PyStr.sorted l ↔ x ∈ l.
Proof. by rewrite sorted_Permutation. Qed.

Lemma StronglySorted_sublist {A} (R : relation A) (l1 l2 : list A) :
  l1 `sublist_of` l2 → StronglySorted R l2 → StronglySorted R l1.
Proof.
  induction 1 as [|x l1 l2 Hsub IH|x l1 l2 Hsub IH]; intros Hs.
  - constructor.
  - apply StronglySorted_inv in Hs as [Hs Hx]. constructor; [by apply IH|].
    rewrite Forall_forall in Hx |- *. intros y Hy. apply Hx.
    by eapply elem_of_sublist.
  - apply StronglySorted_inv in Hs as [Hs _]. by apply IH.
Qed.

(** ** The queries *)

Lemma elem_of_keys {A} (m : gmap string A) (k : string) :
  k ∈ (map_to_list m).*1 ↔ is_Some (m !! k).
Proof.
  rewrite list_elem_of_fmap. split.
  - intros [[k' x] [-> Hin]]. apply elem_of_map_to_list in Hin. by eexists.
  - intros [x Hx]. exists (k, x). split; [done|]. by apply elem_of_map_to_list.
Qed.

Lemma get_dependency_list_ok (self : PkgDep) (key : string)
    (deps : gmap string (list Provider)) :
  dep self !! key = Some deps →
  get_dependency_list self key = Ok (PyStr.sorted (map_to_list deps).*1).
Proof. intros H. unfold get_dependency_list. by rewrite H. Qed.

Lemma internal_dependency_loop_spec (self : PkgDep) (providers : list Provider) :
  internal_dependency_loop self providers false = true ↔
  ∃ p_name p_version,
    (p_name, p_version) ∈ providers ∧ is_Some (pkg self !! p_name).
Proof.
  induction providers as [|[p v] providers IH]; simpl.
  - split; [done|]. intros (? & ? & Hin & _). by apply elem_of_nil in Hin.
  - unfold internal_package. case_bool_decide as Hp.
    + split; [|done]. intros _. exists p, v. split; [left|done].
    + rewrite IH. split.
      * intros (p' & v' & Hin & Hs). exists p', v'. split; [by right|done].
      * intros (p' & v' & Hin & Hs). apply elem_of_cons in Hin as [Heq|Hin].
        -- by simplify_eq.
        -- by exists p', v'.
Qed.

Lemma filter_raising_ok {A} (cond : A → result bool) (P : A → Prop)
    `{∀ x, Decision (P x)} (l : list A) :
  (∀ x, x ∈ l → cond x = Ok (bool_decide (P x))) →
  filter_raising cond l = Ok (filter P l).
Proof.
  induction l as [|x l IH]; intros Hc; [done|].
  simpl. rewrite (Hc x) by left. simpl.
  rewrite IH by (intros y Hy; apply Hc; by right). simpl.
  rewrite filter_cons. unfold mret, result_ret. by case_bool_decide; case_decide.
Qed.

Lemma internal_dependency_ok (self : PkgDep) (key d : string)
    (deps : gmap string (list Provider)) (providers : list Provider) :
  dep self !! key = Some deps → deps !! d = Some providers →
  internal_dependency self key d =
    Ok (internal_dependency_loop self providers false).
Proof.
  intros Hk Hd. unfold internal_dependency, get_provider_list.
  by rewrite Hk, Hd.
Qed.

Lemma get_dep_list_all (self : PkgDep) (key : string) :
  get_dep_list self key true = get_dependency_list self key.
Proof.
  unfold get_dep_list. by destruct (get_dependency_list self key).
Qed.

Lemma get_dep_list_internal (self : PkgDep) (key : string)
    (deps : gmap string (list Provider)) :
  dep self !! key = Some deps →
  get_dep_list self key false =
    Ok (filter (λ d, internal_dependency self key d = Ok true)
          (PyStr.sorted (map_to_list deps).*1)).
Proof.
  intros Hk. unfold get_dep_list.
  rewrite (get_dependency_list_ok _ _ _ Hk). simpl.
  apply filter_raising_ok.
  intros x Hx. apply elem_of_sorted, elem_of_keys in Hx as [providers Hx].
  rewrite (internal_dependency_ok _ _ _ _ _ Hk Hx).
  by destruct (internal_dependency_loop self providers false).
Qed.

(** Every name of an effective dependency list is a declared dependency. *)
Lemma get_dep_list_declared (self : PkgDep) (key : string)
    (deps : gmap string (list Provider)) (include_all : bool) :
  dep self !! key = Some deps →
  ∃ d_list, get_dep_list self key include_all = Ok d_list ∧
    d_list `sublist_of` PyStr.sorted (map_to_list deps).*1.
Proof.
  intros Hk. destruct include_all.
  - rewrite get_dep_list_all, (get_dependency_list_ok _ _ _ Hk). by eexists.
  - rewrite (get_dep_list_internal _ _ _ Hk). eexists. split; [done|].
    apply sublist_filter.
Qed.

(** C4: for a dependency declared under a package of the dependency map,
    [internal_dependency] returns [True] exactly when one of its providers
    has a name that is a key of the package collection; when the package or
    the dependency is unknown the [ValueError] of [get_provider_list] comes
    out of [internal_dependency] unchanged. *)
Theorem internal_dependency_spec (self : PkgDep) (key d : string) :
  (∀ deps providers,
     dep self !! key = Some deps → deps !! d = Some providers →
     ∃ found, internal_dependency self key d = Ok found ∧
       (found = true ↔
        ∃ p_name p_version,
          (p_name, p_version) ∈ providers ∧ is_Some (pkg self !! p_name))) ∧
  (∀ e, get_provider_list self key d = Err e →
        internal_dependency self key d = Err e) ∧
  ((dep self !! key = None ∨
    ∃ deps, dep self !! key = Some deps ∧ deps !! d = None) →
   ∃ msg, internal_dependency self key d = Err (ValueError msg)).
Proof.
  split; [|split].
  - intros deps providers Hk Hd. eexists. split.
    + by eapply internal_dependency_ok.
    + apply internal_dependency_loop_spec.
  - intros e He. unfold internal_dependency. by rewrite He.
  - unfold internal_dependency, get_provider_list.
    intros [->|(deps & -> & ->)]; by eexists.
Qed.

Lemma internal_dependency_spec_witness :
  (∃ found, internal_dependency model_mixed "foo.x86_64" "libbar" = Ok found ∧
     (found = true ↔
      ∃ p_name p_version,
        (p_name, p_version) ∈ [("libbar.i686", "2.0"); ("bar.i686", "1")] ∧
        is_Some (pkg model_mixed !! p_name))) ∧
  internal_dependency model_mixed "foo.x86_64" "libqux" =
    Err (ValueError "package foo.x86_64 does not exist").
Proof.
  destruct (internal_dependency_spec model_mixed "foo.x86_64" "libbar")
    as (Hknown & _ & _).
  destruct (internal_dependency_spec model_mixed "foo.x86_64" "libqux")
    as (_ & Hunknown & _).
  split.
  - apply (Hknown {[ "libbar" := [("libbar.i686", "2.0"); ("bar.i686", "1")];
                    "libc" := [("glibc.x86_64", "2.17")] ]});
      vm_compute; reflexivity.
  - apply Hunknown. vm_compute. reflexivity.
Defined.

(** C3: for a key of the dependency map, the effective dependency list with
    [include_all] is the dependency list itself; without it, it is the
    dependency list filtered by [internal_dependency], order kept; and a
    package without dependencies has the empty list either way. *)
Theorem get_dep_list_spec (self : PkgDep) (key : string)
    (deps : gmap string (list Provider)) :
  dep self !! key = Some deps →
  get_dep_list self key true = get_dependency_list self key ∧
  (∃ d_list,
     get_dependency_list self key = Ok d_list ∧
     get_dep_list self key false =
       Ok (filter (λ d, internal_dependency self key d = Ok true) d_list)) ∧
  (deps = ∅ → ∀ include_all, get_dep_list self key include_all = Ok []).
Proof.
  intros Hk. split; [apply get_dep_list_all|split].
  - eexists. split; [by apply get_dependency_list_ok|].
    by apply get_dep_list_internal.
  - intros -> include_all. unfold get_dep_list.
    rewrite (get_dependency_list_ok _ _ _ Hk), map_to_list_empty.
    by destruct include_all.
Qed.

Lemma get_dep_list_spec_witness :
  get_dep_list model_mixed "foo.x86_64" true = Ok ["libbar"; "libc"] ∧
  get_dep_list model_mixed "foo.x86_64" false = Ok ["libbar"] ∧
  get_dep_list model_mixed "bar.i686" false = Ok [].
Proof.
  destruct (get_dep_list_spec model_mixed "foo.x86_64"
              {[ "libbar" := [("libbar.i686", "2.0"); ("bar.i686", "1")];
                 "libc" := [("glibc.x86_64", "2.17")] ]})
    as (Hall & (d_list & Hlist & Hint) & _); [vm_compute; reflexivity|].
  destruct (get_dep_list_spec model_mixed "bar.i686" ∅)
    as (_ & _ & Hempty); [vm_compute; reflexivity|].
  split; [|split].
  - rewrite Hall. vm_compute. reflexivity.
  - rewrite Hint. vm_compute in Hlist. injection Hlist as <-.
    vm_compute. reflexivity.
  - by apply Hempty.
Defined.

(** C7: for a key of the dependency map, [get_dependency_list] returns the
    names of the declared dependencies, each once, in strictly ascending
    lexicographic order, and the effective dependency list is in that order
    too for both values of the flag.  The list is computed from the set of
    names only, whatever the order of the [add_dependency] calls. *)
Theorem dependency_lists_ascending (self : PkgDep) (key : string)
    (deps : gmap string (list Provider)) :
  dep self !! key = Some deps →
  (∃ d_list,
     get_dependency_list self key = Ok d_list ∧
     StronglySorted PyStr.lt d_list ∧
     ∀ d, d ∈ d_list ↔ is_Some (deps !! d)) ∧
  (∀ include_all, ∃ d_list,
     get_dep_list self key include_all = Ok d_list ∧
     StronglySorted PyStr.lt d_list).
Proof.
  intros Hk.
  assert (StronglySorted PyStr.lt (PyStr.sorted (map_to_list deps).*1)) as Hs
    by apply sorted_ascending, NoDup_fst_map_to_list.
  split.
  - eexists. split; [by apply get_dependency_list_ok|]. split; [done|].
    intros d. by rewrite elem_of_sorted, elem_of_keys.
  - intros include_all.
    destruct (get_dep_list_declared self key deps include_all Hk)
      as (d_list & Hd & Hsub).
    exists d_list. split; [done|]. by eapply StronglySorted_sublist.
Qed.

Lemma dependency_lists_ascending_witness :
  ∃ d_list, get_dep_list model_mixed "foo.x86_64" true = Ok d_list ∧
            StronglySorted PyStr.lt d_list.
Proof.
  apply (dependency_lists_ascending model_mixed "foo.x86_64"
           {[ "libbar" := [("libbar.i686", "2.0"); ("bar.i686", "1")];
              "libc" := [("glibc.x86_64", "2.17")] ]}).
  vm_compute. reflexivity.
Defined.

(** ** Python strings *)

Lemma split_not_nil (sep : ascii) (s : string) : PyStr.split sep s ≠ [].
Proof.
  destruct s as [|c s]; simpl; [done|].
  destruct (Ascii.eqb c sep); [done|]. by destruct (PyStr.split sep s).
Qed.

Lemma split_no_sep (sep : ascii) (s : string) :
  PyStr.contains sep s = false → PyStr.split sep s = [s].
Proof.
  induction s as [|c s IH]; simpl; [done|].
  intros [Hc Hs]%orb_false_elim. rewrite Hc. by rewrite IH.
Qed.

Lemma split_app_sep (sep : ascii) (s rest : string) :
  PyStr.contains sep s = false →
  PyStr.split sep (s +:+ String sep rest) = s :: PyStr.split sep rest.
Proof.
  induction s as [|c s IH]; intros Hs.
  - change ("" +:+ String sep rest) with (String sep rest). simpl.
    by rewrite Ascii.eqb_refl.
  - simpl in Hs. apply orb_false_elim in Hs as [Hc Hs].
    change (String c s +:+ String sep rest)
      with (String c (s +:+ String sep rest)).
    simpl. rewrite Hc. by rewrite IH.
Qed.

Lemma split_whitespace_blank (s : string) :
  PyStr.lstrip s = "" → PyStr.split_whitespace s = [].
Proof.
  induction s as [|c s IH]; simpl; [done|].
  by destruct (PyStr.isspace c).
Qed.

(** ** The line classifiers *)

(** A value is cut at its first [':']: of the pieces of the line only the
    second one is returned. *)
Lemma split_info_line_second_piece (k v rest : string) :
  PyStr.contains ":" k = false →
  PyStr.contains ":" v = false →
  PyStr.strip k ∈ KEY_INFO_LIST →
  split_info_line (k +:+ String ":" (v +:+ String ":" rest)) =
    Ok (Some (PyStr.strip k), Some (PyStr.strip v)).
Proof.
  intros Hk Hv Hkey. unfold split_info_line.
  rewrite (split_app_sep _ _ _ Hk), (split_app_sep _ _ _ Hv). simpl.
  by rewrite bool_decide_eq_true_2.
Qed.

(** With one [':'] in the line the value is the whole remainder. *)
Lemma split_info_line_one_colon (k v : string) :
  PyStr.contains ":" k = false →
  PyStr.contains ":" v = false →
  PyStr.strip k ∈ KEY_INFO_LIST →
  split_info_line (k +:+ String ":" v) =
    Ok (Some (PyStr.strip k), Some (PyStr.strip v)).
Proof.
  intros Hk Hv Hkey. unfold split_info_line.
  rewrite (split_app_sep _ _ _ Hk), (split_no_sep _ _ Hv). simpl.
  by rewrite bool_decide_eq_true_2.
Qed.

(** A line whose first piece is not a keyword is no match, and never an
    exception. *)
Lemma split_info_line_no_match (line : string) :
  PyStr.strip (hd "" (PyStr.split ":" line)) ∉ KEY_INFO_LIST →
  split_info_line line = Ok (None, None).
Proof.
  intros Hkey. unfold split_info_line.
  pose proof (split_not_nil ":" line) as Hne.
  destruct (PyStr.split ":" line) as [|w0 ws]; [done|]. simpl in *.
  by rewrite bool_decide_eq_false_2.
Qed.

(** A keyword alone on its line, without [':'], has no second piece. *)
Lemma split_info_line_keyword_alone (line : string) :
  PyStr.contains ":" line = false →
  PyStr.strip line ∈ KEY_INFO_LIST →
  split_info_line line = Err IndexError.
Proof.
  intros Hc Hkey. unfold split_info_line. rewrite (split_no_sep _ _ Hc). simpl.
  by rewrite bool_decide_eq_true_2.
Qed.

(** What [split_info_line] returns is [(None, None)] or a keyword with its
    value. *)
Lemma split_info_line_shape (line : string) (key name : option string) :
  split_info_line line = Ok (key, name) →
  (key = None ∧ name = None) ∨
  (∃ k v, key = Some k ∧ name = Some v ∧ k ∈ KEY_INFO_LIST).
Proof.
  unfold split_info_line.
  destruct (index (PyStr.split ":" line) 0) as [w0|]; simpl; [|done].
  case_bool_decide as Hk.
  - destruct (index (PyStr.split ":" line) 1) as [w1|]; simpl; [|done].
    intros [= <- <-]. right. by eexists _, _.
  - intros [= <- <-]. by left.
Qed.

(** An empty or blank line has no first token. *)
Lemma split_dep_line_blank (line : string) :
  PyStr.lstrip line = "" → split_dep_line line = Err IndexError.
Proof.
  intros Hb. unfold split_dep_line. by rewrite (split_whitespace_blank _ Hb).
Qed.

(** C1: on the line [Summary: a: b] the classifier returns the keyword with
    the value [a], the text between the first and the second [':'], and not
    the remainder [a: b] of the line. *)
Theorem split_info_line_cuts_value :
  split_info_line "Summary: a: b" = Ok (Some "Summary", Some "a") ∧
  split_info_line "Summary: a: b" ≠ Ok (Some "Summary", Some "a: b").
Proof. split; [reflexivity|discriminate]. Qed.

(** C2: the classifiers raise on lines they should skip: [split_dep_line]
    raises [IndexError] on the empty line, on a blank line and on a keyword
    without its tokens; [split_info_line] raises it on a keyword that is not
    followed by [':']. *)
Theorem classifiers_raise :
  split_dep_line "" = Err IndexError ∧
  split_dep_line (String "010" "") = Err IndexError ∧
  split_dep_line "   " = Err IndexError ∧
  split_dep_line "dependency:" = Err IndexError ∧
  split_dep_line "package: foo.x86_64" = Err IndexError ∧
  split_info_line "Name" = Err IndexError.
Proof. repeat split; reflexivity. Qed.
Example split_info_line_ex1 :
  split_info_line "Name        : foo " = Ok (Some "Name", Some "foo").
Proof. reflexivity. Qed.

Example split_info_line_ex2 :
  split_info_line "Summary: a: b" = Ok (Some "Summary", Some "a").
Proof. reflexivity. Qed.

Example split_info_line_ex3 : split_info_line "Name" = Err IndexError.
Proof. reflexivity. Qed.

Example split_info_line_ex4 : split_info_line "" = Ok (None, None).
Proof. reflexivity. Qed.

Example split_dep_line_ex1 :
  split_dep_line "  provider: libbar.x86_64   2.0 " =
  Ok (Some "provider:", Some "libbar.x86_64", Some "2.0").
Proof. reflexivity. Qed.

Example split_dep_line_ex2 : split_dep_line "   " = Err IndexError.
Proof. reflexivity. Qed.

Example split_ex : PyStr.split ":" "a:b::c:" = ["a"; "b"; ""; "c"; ""].
Proof. reflexivity. Qed.

Example split_whitespace_ex :
  PyStr.split_whitespace "  ab  c d " = ["ab"; "c"; "d"].
Proof. reflexivity. Qed.

Example strip_ex : PyStr.strip "  a b  " = "a b".
Proof. reflexivity. Qed.

(** ** Sequencing *)

Lemma bind_assoc {A B C} (m : M A) (k : A → M B) (h : B → M C) self :
  bind (bind m k) h self = bind m (fun a => bind (k a) h) self.
Proof.
  unfold bind. destruct (outcome (m self)) as [a|e]; simpl; [|done].
  destruct (outcome (k a (state (m self)))) as [b|e]; simpl; [|done].
  by rewrite (assoc_L (++)).
Qed.

Lemma bind_ext {A B} (m : M A) (k k' : A → M B) self :
  (∀ a self', k a self' = k' a self') → bind m k self = bind m k' self.
Proof. intros Hk. unfold bind. destruct (outcome (m self)); by rewrite ?Hk. Qed.

Lemma for_fold_app {A V} (l1 l2 : list A) (body : A → V → M V) (v : V) self :
  for_fold (l1 ++ l2) body v self =
  bind (for_fold l1 body v) (fun v' => for_fold l2 body v') self.
Proof.
  revert v self. induction l1 as [|x l1 IH]; intros v self; simpl.
  - unfold bind, ret. simpl. by destruct (for_fold l2 body v self).
  - rewrite bind_assoc. apply bind_ext. intros a self'. apply IH.
Qed.

Lemma for_each_app {A} (l1 l2 : list A) (body : A → M unit) self :
  for_each (l1 ++ l2) body self =
  bind (for_each l1 body) (fun _ => for_each l2 body) self.
Proof.
  revert self. induction l1 as [|x l1 IH]; intros self; simpl.
  - unfold bind, ret. simpl. by destruct (for_each l2 body self).
  - rewrite bind_assoc. apply bind_ext. intros a self'. apply IH.
Qed.

(** ** The info-file parser *)

Lemma accumulate_cons (line : string) (f : list string) (v : InfoVars) :
  accumulate (line :: f) v = accumulate f (accumulate [line] v).
Proof. reflexivity. Qed.

Lemma accumulate_nil (v : InfoVars) : accumulate [] v = v.
Proof. by destruct v. Qed.

(** A line that does not start a record leaves the object alone. *)
Lemma parse_info_line_field (line : string) (v : InfoVars) (self : PkgDep) :
  field_line line = true →
  ∃ logs, Forall found_record logs ∧
    parse_info_line line v self = MkRun self logs (Ok (accumulate [line] v)).
Proof.
  unfold field_line, parse_info_line, accumulate. simpl.
  destruct (split_info_line line) as [[key name]|e] eqn:Hline; [|done].
  intros Hkey%bool_decide_eq_true.
  destruct (split_info_line_shape _ _ _ Hline)
    as [[-> ->]|(k & val & -> & -> & Hk)].
  - exists []. split; [constructor|]. by destruct v.
  - assert (k ≠ KEY_NAME) as Hne by congruence.
    unfold KEY_INFO_LIST in Hk.
    repeat (apply elem_of_cons in Hk as [->|Hk]); try done;
      try (by apply elem_of_nil in Hk);
      (eexists [_]; split;
       [repeat constructor; by eexists|destruct v; reflexivity]).
Qed.

Lemma for_fold_fields (f : list string) (v : InfoVars) (self : PkgDep) :
  forallb field_line f = true →
  ∃ logs, Forall found_record logs ∧
    for_fold f parse_info_line v self = MkRun self logs (Ok (accumulate f v)).
Proof.
  revert v. induction f as [|line f IH]; intros v Hf.
  - exists []. split; [constructor|]. by rewrite accumulate_nil.
  - simpl in Hf. apply andb_prop in Hf as [Hline Hf].
    destruct (parse_info_line_field line v self Hline) as (logs1 & Hl1 & Hrun1).
    destruct (IH (accumulate [line] v) Hf) as (logs2 & Hl2 & Hrun2).
    exists (logs1 ++ logs2). split; [by apply Forall_app|].
    simpl. unfold bind. rewrite Hrun1. simpl. rewrite Hrun2. simpl.
    by rewrite accumulate_cons.
Qed.

(** A [Name] line makes its value the pending record, all fields reset. *)
Lemma parse_info_line_name (line name : string) (v : InfoVars) (self : PkgDep) :
  split_info_line line = Ok (Some KEY_NAME, Some name) →
  outcome (parse_info_line line v self) =
    Ok (MkInfoVars name UNDEFINED UNDEFINED UNDEFINED UNDEFINED UNDEFINED).
Proof.
  intros Hline. unfold parse_info_line. run_unfold. rewrite Hline. simpl.
  unfold flush, add_package. run_unfold.
  repeat (case_bool_decide; simpl); done.
Qed.

Lemma add_package_outcome (key a v r rp sm : string) (self : PkgDep) :
  outcome (add_package key a v r rp sm self) = Ok tt.
Proof. unfold add_package. run_unfold. by case_bool_decide. Qed.

Lemma for_fold_name (pre : list string) (nl name : string) (v0 : InfoVars)
    (self : PkgDep) :
  outcome (for_fold pre parse_info_line InfoVars_init self) = Ok v0 →
  split_info_line nl = Ok (Some KEY_NAME, Some name) →
  outcome (for_fold (pre ++ [nl]) parse_info_line InfoVars_init self) =
    Ok (MkInfoVars name UNDEFINED UNDEFINED UNDEFINED UNDEFINED UNDEFINED).
Proof.
  intros Hpre Hnl. rewrite for_fold_app. rewrite (bind_ok _ _ _ _ Hpre). simpl.
  unfold bind at 1.
  rewrite (parse_info_line_name nl name v0 _ Hnl). done.
Qed.

Lemma last_value_absent (key : string) (f : list string) (default : string) :
  forallb (fun line => negb (carries key line)) f = true →
  last_value key f default = default.
Proof.
  revert default. induction f as [|line f IH]; intros default; simpl; [done|].
  intros [Hline Hf]%andb_prop. rewrite IH by done.
  unfold carries in Hline.
  destruct (split_info_line line) as [[[k|] [val|]]|]; try done.
  apply negb_true_iff in Hline. by rewrite Hline.
Qed.

(** C8 (as amended): when the classifier accepts the lines, the end of the
    input flushes the pending record with one [add_package] call whose key is
    the name of the last [Name] line, a dot and the last [Arch] value after
    it, each field being [undefined] when no line gave it.  Without any
    [Name] line the one call has the key [undefined.] followed by the last
    [Arch] value, which is [undefined.undefined] when there is no [Arch]
    line either (the empty input included). *)
Theorem parse_info_file_flush (self : PkgDep) :
  (∀ pre nl name post v0,
     outcome (for_fold pre parse_info_line InfoVars_init self) = Ok v0 →
     split_info_line nl = Ok (Some KEY_NAME, Some name) →
     forallb field_line post = true →
     let r1 := for_fold (pre ++ [nl]) parse_info_line InfoVars_init self in
     let arch := last_value KEY_ARCH post UNDEFINED in
     let r2 :=
       add_package (name +:+ "." +:+ arch) arch
         (last_value KEY_VERSION post UNDEFINED)
         (last_value KEY_RELEASE post UNDEFINED)
         (last_value KEY_REPOSITORY post UNDEFINED)
         (last_value KEY_SUMMARY post UNDEFINED) (state r1) in
     ∃ logs, Forall found_record logs ∧
       parse_info_file (pre ++ nl :: post) self =
         MkRun (state r2) (trace r1 ++ logs ++ trace r2) (Ok tt)) ∧
  (∀ f,
     forallb field_line f = true →
     let arch := last_value KEY_ARCH f UNDEFINED in
     let r :=
       add_package (UNDEFINED +:+ "." +:+ arch) arch
         (last_value KEY_VERSION f UNDEFINED)
         (last_value KEY_RELEASE f UNDEFINED)
         (last_value KEY_REPOSITORY f UNDEFINED)
         (last_value KEY_SUMMARY f UNDEFINED) self in
     (∃ logs, Forall found_record logs ∧
        parse_info_file f self = MkRun (state r) (logs ++ trace r) (Ok tt)) ∧
     (forallb (fun line => negb (carries KEY_ARCH line)) f = true →
      UNDEFINED +:+ "." +:+ arch = "undefined.undefined")) ∧
  parse_info_file [] self =
    add_package "undefined.undefined" UNDEFINED UNDEFINED UNDEFINED UNDEFINED
      UNDEFINED self.
Proof.
  split; [|split].
  - intros pre nl name post v0 Hpre Hnl Hpost r1 arch r2.
    pose proof (for_fold_name pre nl name v0 self Hpre Hnl) as Hr1.
    fold r1 in Hr1.
    destruct (for_fold_fields post
                (MkInfoVars name UNDEFINED UNDEFINED UNDEFINED UNDEFINED UNDEFINED)
                (state r1) Hpost) as (logs & Hlogs & Hrun).
    exists logs. split; [done|].
    unfold parse_info_file.
    replace (pre ++ nl :: post) with ((pre ++ [nl]) ++ post)
      by (by rewrite <- (assoc_L (++))).
    rewrite (bind_ok _ _ _ (accumulate post
               (MkInfoVars name UNDEFINED UNDEFINED UNDEFINED UNDEFINED UNDEFINED))).
    + rewrite for_fold_app, (bind_ok _ _ _ _ Hr1). fold r1. rewrite Hrun. simpl.
      unfold flush, accumulate. simpl. fold arch. fold r2.
      rewrite <- (assoc_L (++)). f_equal. apply add_package_outcome.
    + rewrite for_fold_app, (bind_ok _ _ _ _ Hr1). fold r1. by rewrite Hrun.
  - intros f Hf arch r. split.
    + destruct (for_fold_fields f InfoVars_init self Hf) as (logs & Hlogs & Hrun).
      exists logs. split; [done|].
      unfold parse_info_file, bind. rewrite Hrun. simpl.
      unfold flush, accumulate. simpl. fold arch. fold r.
      f_equal. apply add_package_outcome.
    + intros Hno. unfold arch. by rewrite last_value_absent.
  - unfold parse_info_file, bind. simpl.
    by destruct (flush InfoVars_init self).
Qed.

Lemma parse_info_file_flush_witness :
  (∃ logs, Forall found_record logs ∧
     parse_info_file ["Name: foo"; "Arch: x86_64"; "Name: bar"; "Version: 2";
                      "Arch: i686"; "Arch: noarch"] PkgDep_init =
       let r1 :=
         for_fold ["Name: foo"; "Arch: x86_64"; "Name: bar"] parse_info_line
           InfoVars_init PkgDep_init in
       let r2 :=
         add_package "bar.noarch" "noarch" "2" "undefined" "undefined"
           "undefined" (state r1) in
       MkRun (state r2) (trace r1 ++ logs ++ trace r2) (Ok tt)) ∧
  (∃ logs, Forall found_record logs ∧
     parse_info_file ["Arch: x86_64"; "noise"] PkgDep_init =
       let r :=
         add_package "undefined.x86_64" "x86_64" "undefined" "undefined"
           "undefined" "undefined" PkgDep_init in
       MkRun (state r) (logs ++ trace r) (Ok tt)) ∧
  UNDEFINED +:+ "." +:+ last_value KEY_ARCH ["Version: 1"] UNDEFINED =
    "undefined.undefined".
Proof.
  destruct (parse_info_file_flush PkgDep_init) as (Hname & Hnone & _).
  split; [|split].
  - apply (Hname ["Name: foo"; "Arch: x86_64"] "Name: bar" "bar"
             ["Version: 2"; "Arch: i686"; "Arch: noarch"]
             (MkInfoVars "foo" "x86_64" UNDEFINED UNDEFINED UNDEFINED UNDEFINED));
      vm_compute; reflexivity.
  - apply (Hnone ["Arch: x86_64"; "noise"]). vm_compute. reflexivity.
  - apply (Hnone ["Version: 1"]); vm_compute; reflexivity.
Defined.

(** C8 as stated fails: an [Arch] line without any [Name] line gives the one
    flushed package the key [undefined.x86_64], and no package has the key
    [undefined.undefined]. *)
Lemma parse_info_file_no_name_counterexample :
  forallb field_line ["Arch: x86_64"] = true ∧
  outcome (parse_info_file ["Arch: x86_64"] PkgDep_init) = Ok tt ∧
  pkg (state (parse_info_file ["Arch: x86_64"] PkgDep_init))
    !! "undefined.undefined" = None ∧
  pkg (state (parse_info_file ["Arch: x86_64"] PkgDep_init)) =
    {[ "undefined.x86_64" :=
         MkPkgInfo "x86_64" "undefined" "undefined" "undefined" "undefined" ]}.
Proof. repeat split; vm_compute; reflexivity. Qed.

(** ** The csv renderer *)

Lemma succeeds_run (m : M unit) (self : PkgDep) :
  succeeds m self → m self = MkRun self (trace (m self)) (Ok tt).
Proof. intros [Hs Ho]. rewrite (Run_eta (m self)) at 1. by rewrite Hs, Ho. Qed.

Lemma for_each_succeeds {A} (l : list A) (body : A → M unit) (self : PkgDep) :
  (∀ x, x ∈ l → succeeds (body x) self) → succeeds (for_each l body) self.
Proof.
  induction l as [|x l IH]; intros Hl; [done|].
  destruct (Hl x) as [Hs Ho]; [left|].
  destruct IH as [Hs' Ho']; [intros y Hy; apply Hl; by right|].
  unfold succeeds. simpl. unfold bind. rewrite Ho. simpl. by rewrite Hs.
Qed.

Lemma csv_pkg_line_ok (self : PkgDep) (key : string) (info : PkgInfo) :
  pkg self !! key = Some info →
  csv_pkg_line self key =
    Ok (key +:+ "," +:+ version info +:+ "," +:+ release info +:+ ","
        +:+ arch info +:+ "," +:+ repository info +:+ ","
        +:+ PyStr.replace "," " " (summary info)).
Proof.
  intros Hk. unfold csv_pkg_line, get_version, get_release, get_arch,
    get_repository, get_summary, get_field. by rewrite Hk.
Qed.

Lemma csv_package_succeeds (self : PkgDep) (print_all : bool) (key : string) :
  dom (pkg self) ⊆ dom (dep self) →
  is_Some (pkg self !! key) →
  succeeds (csv_package print_all key) self.
Proof.
  intros Hwf [info Hinfo].
  assert (is_Some (dep self !! key)) as [deps Hdeps].
  { apply elem_of_dom, Hwf, elem_of_dom. by eexists. }
  destruct (get_dep_list_declared self key deps print_all Hdeps)
    as (d_list & Hd & Hsub).
  unfold succeeds, csv_package. run_unfold.
  rewrite (csv_pkg_line_ok _ _ _ Hinfo), Hd. simpl.
  case_bool_decide; [done|].
  match goal with |- context [for_each d_list ?b] =>
    destruct (for_each_succeeds d_list b self) as [Hs Ho]
  end.
  - intros d Hin.
    assert (is_Some (deps !! d)) as [providers Hp].
    { apply elem_of_keys, elem_of_sorted. by eapply elem_of_sublist. }
    unfold succeeds, get_provider_list. run_unfold. by rewrite Hdeps, Hp.
  - by rewrite Hs, Ho.
Qed.

(** C9: in a model where every package has an entry in the dependency map,
    a package whose effective dependency list is empty contributes exactly
    one line to the csv output: its six columns (key, version, release,
    architecture, repository, summary with commas replaced by spaces)
    followed by the column [---].  The line stands between the lines of the
    packages sorted before it and those of the packages sorted after it. *)
Theorem output_csv_placeholder (self : PkgDep) (print_all : bool)
    (key : string) (info : PkgInfo) (before after : list string) :
  dom (pkg self) ⊆ dom (dep self) →
  PyStr.sorted (map_to_list (pkg self)).*1 = before ++ key :: after →
  pkg self !! key = Some info →
  get_dep_list self key print_all = Ok [] →
  let pkg_line :=
    key +:+ "," +:+ version info +:+ "," +:+ release info +:+ ","
    +:+ arch info +:+ "," +:+ repository info +:+ ","
    +:+ PyStr.replace "," " " (summary info) in
  let row := pkg_line +:+ ",---" in
  csv_package print_all key self = MkRun self [Print row] (Ok tt) ∧
  output_csv print_all self =
    MkRun self
      (Print csv_header ::
       trace (for_each before (csv_package print_all) self) ++
       Print row :: trace (for_each after (csv_package print_all) self))
      (Ok tt) ∧
  (key ∉ before) ∧ (key ∉ after).
Proof.
  intros Hwf Hsorted Hinfo Hempty pkg_line row.
  assert (csv_package print_all key self = MkRun self [Print row] (Ok tt)) as Hrow.
  { unfold csv_package. run_unfold.
    by rewrite (csv_pkg_line_ok _ _ _ Hinfo), Hempty. }
  assert (∀ k, k ∈ before ++ key :: after → is_Some (pkg self !! k)) as Hkeys.
  { intros k Hk. rewrite <- Hsorted in Hk. by apply elem_of_keys, elem_of_sorted. }
  assert (NoDup (before ++ key :: after)) as Hnd.
  { rewrite <- Hsorted, sorted_Permutation. apply NoDup_fst_map_to_list. }
  split; [done|split].
  - unfold output_csv. run_unfold. rewrite Hsorted, for_each_app. simpl.
    assert (succeeds (for_each before (csv_package print_all)) self) as Hb.
    { apply for_each_succeeds. intros k Hk.
      apply csv_package_succeeds; [done|]. apply Hkeys, elem_of_app. by left. }
    assert (succeeds (for_each after (csv_package print_all)) self) as Ha.
    { apply for_each_succeeds. intros k Hk.
      apply csv_package_succeeds; [done|]. apply Hkeys, elem_of_app.
      right. by right. }
    apply succeeds_run in Hb, Ha.
    unfold bind. rewrite Hb. simpl. rewrite Hrow. simpl. rewrite Ha. done.
  - apply NoDup_app in Hnd as (_ & Hnot & Hnd). split.
    + intros Hin. apply (Hnot _ Hin). left.
    + by apply NoDup_cons in Hnd as [? _].
Qed.

Lemma output_csv_placeholder_witness :
  output_csv false model_mixed =
    MkRun model_mixed
      (Print csv_header ::
       trace (for_each [] (csv_package false) model_mixed) ++
       Print "bar.i686,1,2,i686,base,bar,---" ::
       trace (for_each ["foo.x86_64"] (csv_package false) model_mixed))
      (Ok tt).
Proof.
  apply (output_csv_placeholder model_mixed false "bar.i686"
           (MkPkgInfo "i686" "1" "2" "base" "bar") [] ["foo.x86_64"]).
  - apply (bool_decide_unpack _). vm_compute. exact I.
  - vm_compute. reflexivity.
  - vm_compute. reflexivity.
  - vm_compute. reflexivity.
Defined.

Example output_csv_mixed :
  trace (output_csv false model_mixed) =
    [Print csv_header;
     Print "bar.i686,1,2,i686,base,bar,---";
     Print "foo.x86_64,1.0,1,x86_64,base,a tool,libbar,libbar.i686,2.0,,bar.i686,1,(*)"].
Proof. vm_compute. reflexivity. Qed.

Example output_csv_mixed_all :
  trace (output_csv true model_mixed) =
    [Print csv_header;
     Print "bar.i686,1,2,i686,base,bar,---";
     Print "foo.x86_64,1.0,1,x86_64,base,a tool,libbar,libbar.i686,2.0,,bar.i686,1,(*)";
     Print "foo.x86_64,1.0,1,x86_64,base,a tool,libc,glibc.x86_64,2.17,"].
Proof. vm_compute. reflexivity. Qed.

(** ** Every object the parsers build has an entry for each package *)

Section Preservation.
Context (I : PkgDep → Prop).

Lemma preserves_bind {A B} (m : M A) (k : A → M B) :
  preserves I m → (∀ a, preserves I (k a)) → preserves I (bind m k).
Proof.
  intros Hm Hk self HI. unfold bind.
  destruct (outcome (m self)) as [a|e] eqn:Ho; simpl.
  - by apply Hk, Hm.
  - by apply Hm.
Qed.

Lemma preserves_readonly {A} (m : M A) :
  (∀ self, state (m self) = self) → preserves I m.
Proof. intros Hm self HI. by rewrite Hm. Qed.

Lemma preserves_for_fold {A V} (l : list A) (body : A → V → M V) (v : V) :
  (∀ x v, preserves I (body x v)) → preserves I (for_fold l body v).
Proof.
  intros Hbody. revert v. induction l as [|x l IH]; intros v; simpl.
  - by apply preserves_readonly.
  - apply preserves_bind; [apply Hbody|apply IH].
Qed.

End Preservation.

Lemma add_package_entries (key a v r rp sm : string) :
  preserves entries (add_package key a v r rp sm).
Proof.
  intros self HI. unfold add_package, entries in *. run_unfold.
  case_bool_decide; simpl; [|done]. rewrite !dom_insert_L.
  by apply union_mono_l.
Qed.

Lemma add_dependency_entries (key d : string) :
  preserves entries (add_dependency key d).
Proof.
  intros self HI. unfold add_dependency, entries in *. run_unfold.
  destruct (dep self !! key) as [deps|]; simpl.
  - case_bool_decide; simpl; [|done]. rewrite dom_insert_L. set_solver.
  - rewrite dom_insert_L. set_solver.
Qed.

Lemma add_provider_entries (key d provider version : string) :
  preserves entries (add_provider key d provider version).
Proof.
  intros self HI. unfold add_provider, entries in *. run_unfold.
  destruct (dep self !! key) as [deps|]; simpl; [|done].
  destruct (deps !! d) as [providers|]; simpl; [|done].
  rewrite dom_insert_L. set_solver.
Qed.

Ltac preserves_step :=
  first
    [ apply add_package_entries
    | apply add_dependency_entries
    | apply add_provider_entries
    | by apply preserves_readonly
    | apply preserves_bind; [|intros ?] ].

Lemma parse_info_line_entries (line : string) (v : InfoVars) :
  preserves entries (parse_info_line line v).
Proof.
  unfold parse_info_line, found, flush.
  apply preserves_bind; [by apply preserves_readonly|]. intros [key name].
  repeat first [case_bool_decide | preserves_step].
Qed.

Lemma parse_dep_line_entries (line : string) (v : DepVars) :
  preserves entries (parse_dep_line line v).
Proof.
  unfold parse_dep_line.
  apply preserves_bind; [by apply preserves_readonly|]. intros [[key name] ver].
  repeat first [case_bool_decide | preserves_step].
Qed.

(** Whatever the two files hold, and whether or not parsing raises, the
    object that [parse_files] leaves has a dependency entry for each of its
    packages. *)
Lemma parse_files_entries (f_info f_dep : list string) :
  entries (state (parse_files f_info f_dep)).
Proof.
  unfold parse_files, parse_info_file, parse_dep_file, flush.
  assert (entries PkgDep_init) as Hinit by done.
  revert Hinit. generalize PkgDep_init.
  change (preserves entries
    (bind (bind (for_fold f_info parse_info_line InfoVars_init)
                (fun v => add_package (pkg_name v +:+ "." +:+ pkg_arch v)
                            (pkg_arch v) (pkg_version v) (pkg_release v)
                            (pkg_repository v) (pkg_summary v)))
          (fun _ => bind (for_fold f_dep parse_dep_line
                            (MkDepVars UNDEFINED UNDEFINED))
                         (fun _ => ret tt)))).
  repeat first
    [ apply preserves_for_fold; intros ??
    | apply parse_info_line_entries
    | apply parse_dep_line_entries
    | preserves_step ].
Qed.

(** ** The example of the specification, end to end *)

Example parse_files_example :
  let r :=
    parse_files
      ["Name: foo"; "Arch: x86_64"; "Version: 1.0"; "Release: 1"; "Repo: base";
       "Summary: a tool"]
      ["package: foo.x86_64 1.0"; "dependency: libbar";
       "provider: libbar.x86_64 2.0"] in
  outcome r = Ok tt ∧
  pkg (state r) =
    {[ "foo.x86_64" := MkPkgInfo "x86_64" "1.0" "1" "base" "a tool" ]} ∧
  get_dependency_list (state r) "foo.x86_64" = Ok ["libbar"] ∧
  internal_dependency (state r) "foo.x86_64" "libbar" = Ok false ∧
  get_dep_list (state r) "foo.x86_64" false = Ok [] ∧
  get_provider_list (state r) "foo.x86_64" "libbar" = Ok [("libbar.x86_64", "2.0")].
Proof. repeat split; vm_compute; reflexivity. Qed.

(** A blank line in the dependency file ends the run with [IndexError]. *)
Example parse_files_blank_line :
  outcome (parse_files ["Name: foo"; "Arch: x86_64"]
             ["package: foo.x86_64 1.0"; ""; "dependency: libbar"]) =
    Err IndexError.
Proof. vm_compute. reflexivity. Qed.

(** A keyword without [':'] in the info file ends the run before the
    pending record is flushed. *)
Example parse_info_file_keyword_alone :
  parse_info_file ["Name: foo"; "Summary"] PkgDep_init =
    MkRun PkgDep_init [Log DEBUG "found package foo"] (Err IndexError).
Proof. vm_compute. reflexivity. Qed.

(** ** The order of the declarations is not observed *)

Lemma add_dependency_state (key d : string) (self : PkgDep) :
  state (add_dependency key d self) =
    MkPkgDep (pkg self)
      (<[key := match default ∅ (dep self !! key) !! d with
                | Some providers => default ∅ (dep self !! key)
                | None => <[d := []]> (default ∅ (dep self !! key))
                end]> (dep self)).
Proof.
  unfold add_dependency. run_unfold.
  destruct (dep self !! key) as [deps|] eqn:Hk; simpl.
  - case_bool_decide as Hd; simpl.
    + by rewrite Hd.
    + destruct (deps !! d) eqn:Hd'; [|done].
      rewrite insert_id by done. by destruct self.
  - by rewrite lookup_empty.
Qed.

(** X24: declaring two dependencies of a package in either order leaves the
    same object, hence the same dependency lists. *)
Lemma add_dependency_comm (key d1 d2 : string) (self : PkgDep) :
  state (add_dependency key d2 (state (add_dependency key d1 self))) =
  state (add_dependency key d1 (state (add_dependency key d2 self))).
Proof.
  rewrite !add_dependency_state. simpl. rewrite !lookup_insert_eq. simpl.
  rewrite !insert_insert_eq. f_equal. f_equal.
  set (deps := default ∅ (dep self !! key)).
  destruct (decide (d1 = d2)) as [->|Hne]; [done|].
  destruct (deps !! d1) eqn:H1, (deps !! d2) eqn:H2;
    rewrite ?lookup_insert_ne, ?H1, ?H2 by done; try done.
  by apply insert_insert_ne.
Qed.

(** ** More on Python strings *)

Lemma split_has_sep (sep : ascii) (s : string) :
  PyStr.contains sep s = true →
  ∃ w0 w1 ws, PyStr.split sep s = w0 :: w1 :: ws.
Proof.
  induction s as [|c s IH]; simpl; [done|].
  destruct (Ascii.eqb c sep) eqn:Hc; simpl.
  - intros _. pose proof (split_not_nil sep s) as Hne.
    destruct (PyStr.split sep s) as [|w1 ws]; [done|]. by eexists _, _, _.
  - intros Hs. destruct (IH Hs) as (w0 & w1 & ws & ->). by eexists _, _, _.
Qed.

Lemma split_pieces_no_sep (sep : ascii) (s : string) :
  Forall (fun w => PyStr.contains sep w = false) (PyStr.split sep s).
Proof.
  induction s as [|c s IH]; simpl; [by repeat constructor|].
  destruct (Ascii.eqb c sep) eqn:Hc; [by constructor|].
  destruct (PyStr.split sep s) as [|w ws]; [by repeat constructor; simpl; rewrite Hc|].
  apply Forall_cons in IH as [Hw Hws]. constructor; [|done].
  simpl. by rewrite Hc.
Qed.

Lemma contains_lstrip (c : ascii) (s : string) :
  PyStr.contains c s = false → PyStr.contains c (PyStr.lstrip s) = false.
Proof.
  induction s as [|c' s IH]; simpl; [done|].
  intros [Hc Hs]%orb_false_elim.
  destruct (PyStr.isspace c'); [by apply IH|]. simpl. by rewrite Hc, Hs.
Qed.

Lemma contains_rstrip (c : ascii) (s : string) :
  PyStr.contains c s = false → PyStr.contains c (PyStr.rstrip s) = false.
Proof.
  induction s as [|c' s IH]; simpl; [done|].
  intros [Hc Hs]%orb_false_elim. specialize (IH Hs).
  destruct (PyStr.rstrip s) as [|d r].
  - destruct (PyStr.isspace c'); [done|]. simpl. by rewrite Hc.
  - simpl in *. by rewrite Hc, IH.
Qed.

Lemma contains_strip (c : ascii) (s : string) :
  PyStr.contains c s = false → PyStr.contains c (PyStr.strip s) = false.
Proof. intros H. by apply contains_rstrip, contains_lstrip. Qed.

Lemma lstrip_starts_clean (s : string) : starts_clean (PyStr.lstrip s).
Proof.
  induction s as [|c s IH]; simpl; [done|].
  by destruct (PyStr.isspace c) eqn:Hc.
Qed.

Lemma lstrip_id (s : string) : starts_clean s → PyStr.lstrip s = s.
Proof. destruct s as [|c s]; simpl; [done|]. by intros ->. Qed.

Lemma rstrip_starts_clean (s : string) :
  starts_clean s → starts_clean (PyStr.rstrip s).
Proof.
  destruct s as [|c s]; simpl; [done|]. intros Hc.
  destruct (PyStr.rstrip s); by rewrite ?Hc.
Qed.

Lemma rstrip_idemp (s : string) :
  PyStr.rstrip (PyStr.rstrip s) = PyStr.rstrip s.
Proof.
  induction s as [|c s IH]; simpl; [done|].
  destruct (PyStr.rstrip s) as [|d r] eqn:Hr.
  - destruct (PyStr.isspace c) eqn:Hc; [done|]. simpl. by rewrite Hc.
  - change (PyStr.rstrip (String c (String d r)))
      with (match PyStr.rstrip (String d r) with
            | EmptyString =>
                if PyStr.isspace c then EmptyString else String c EmptyString
            | r' => String c r'
            end).
    by rewrite IH.
Qed.

Lemma strip_idemp (s : string) : PyStr.strip (PyStr.strip s) = PyStr.strip s.
Proof.
  unfold PyStr.strip.
  rewrite (lstrip_id (PyStr.rstrip (PyStr.lstrip s)))
    by apply rstrip_starts_clean, lstrip_starts_clean.
  apply rstrip_idemp.
Qed.

Lemma rstrip_no_space (w : string) :
  all_chars (fun c => negb (PyStr.isspace c)) w = true → PyStr.rstrip w = w.
Proof.
  induction w as [|c w IH]; simpl; [done|].
  intros [Hc Hw]%andb_prop. rewrite (IH Hw).
  apply negb_true_iff in Hc. destruct w; by rewrite ?Hc.
Qed.

Lemma strip_token (w : string) : token w → PyStr.strip w = w.
Proof.
  intros [Hne Hw]. unfold PyStr.strip. rewrite lstrip_id.
  - by apply rstrip_no_space.
  - destruct w as [|c w]; [done|]. simpl in *.
    apply andb_prop in Hw as [Hc _]. by apply negb_true_iff in Hc.
Qed.

Lemma split_whitespace_tokens (s : string) :
  Forall token (PyStr.split_whitespace s).
Proof.
  induction s as [|c s IH]; simpl; [constructor|].
  destruct (PyStr.isspace c) eqn:Hc; [done|].
  assert (token (String c "")) as Hone.
  { split; [done|]. simpl. by rewrite Hc. }
  destruct s as [|c' s']; [by apply Forall_singleton|].
  destruct (PyStr.isspace c') eqn:Hc'; [by constructor|].
  destruct (PyStr.split_whitespace (String c' s')) as [|w ws];
    [by apply Forall_singleton|].
  apply Forall_cons in IH as [[Hne Hw] Hws]. constructor; [|done].
  split; [done|]. simpl. by rewrite Hc, Hw.
Qed.

(** ** More on the line classifiers *)

(** X1: [split_info_line] raises exactly on the lines that hold one of the
    six keywords, possibly surrounded by white space, and no [':'] at all;
    the exception is then [IndexError].  Every other line is classified. *)
Theorem split_info_line_raises_iff (line : string) (e : exn) :
  split_info_line line = Err e ↔
  e = IndexError ∧ PyStr.contains ":" line = false ∧
  PyStr.strip line ∈ KEY_INFO_LIST.
Proof.
  split.
  - unfold split_info_line.
    destruct (PyStr.contains ":" line) eqn:Hc.
    + destruct (split_has_sep _ _ Hc) as (w0 & w1 & ws & ->). simpl.
      by case_bool_decide.
    + rewrite (split_no_sep _ _ Hc). simpl. case_bool_decide; [|done].
      by intros [= <-].
  - intros (-> & Hc & Hk). by apply split_info_line_keyword_alone.
Qed.

(** X2: when [split_info_line] returns a keyword and a value, the keyword is
    one of the six, the line has a [':'], and the value has no [':'] in it
    and no white space around it. *)
Theorem split_info_line_match (line k v : string) :
  split_info_line line = Ok (Some k, Some v) →
  k ∈ KEY_INFO_LIST ∧
  PyStr.contains ":" line = true ∧
  PyStr.contains ":" v = false ∧
  PyStr.strip v = v.
Proof.
  unfold split_info_line.
  destruct (PyStr.contains ":" line) eqn:Hc.
  - pose proof (split_pieces_no_sep ":" line) as Hp.
    destruct (split_has_sep _ _ Hc) as (w0 & w1 & ws & Hs). rewrite Hs in *.
    simpl. case_bool_decide as Hk; [|done]. intros [= <- <-].
    apply Forall_cons in Hp as [_ [Hw1 _]%Forall_cons].
    repeat split; [done| |].
    + by apply contains_strip.
    + apply strip_idemp.
  - rewrite (split_no_sep _ _ Hc). simpl. by case_bool_decide.
Qed.

Lemma split_info_line_match_witness :
  "Repo" ∈ KEY_INFO_LIST ∧
  PyStr.contains ":" " Repo : base/7 : x " = true ∧
  PyStr.contains ":" "base/7" = false ∧
  PyStr.strip "base/7" = "base/7".
Proof.
  apply (split_info_line_match " Repo : base/7 : x " "Repo" "base/7").
  reflexivity.
Defined.

(** X3: when [split_dep_line] returns a keyword, it is one of the three,
    the name is a token of the line (not empty, no white space), and the
    version is [None] for [dependency:] and a token otherwise. *)
Theorem split_dep_line_match (line key : string) (name ver : option string) :
  split_dep_line line = Ok (Some key, name, ver) →
  key ∈ [KEY_PACKAGE; KEY_DEPENDENCY; KEY_PROVIDER] ∧
  (∃ n, name = Some n ∧ token n ∧
        PyStr.split_whitespace line !! 0 = Some key ∧
        PyStr.split_whitespace line !! 1 = Some n) ∧
  (key = KEY_DEPENDENCY → ver = None) ∧
  (key ≠ KEY_DEPENDENCY →
   ∃ v, ver = Some v ∧ token v ∧ PyStr.split_whitespace line !! 2 = Some v).
Proof.
  unfold split_dep_line, index.
  pose proof (split_whitespace_tokens line) as Ht.
  destruct (PyStr.split_whitespace line) as [|w0 ws]; simpl; [done|].
  apply Forall_cons in Ht as [H0 Ht]. rewrite (strip_token _ H0).
  destruct ws as [|w1 ws]; simpl.
  { repeat case_bool_decide; done. }
  apply Forall_cons in Ht as [H1 Ht]. rewrite (strip_token _ H1).
  destruct ws as [|w2 ws]; simpl.
  { repeat case_bool_decide; try done. intros [= <- <- <-]. subst.
    split_and!; [set_solver|by eexists|done|by intros []]. }
  apply Forall_cons in Ht as [H2 Ht]. rewrite (strip_token _ H2).
  repeat case_bool_decide; try done; intros [= <- <- <-]; subst;
    (split_and!;
     [set_solver|by eexists|first [done|by intros [=]]
     |first [by intros []|intros _; by eexists]]).
Qed.

Lemma split_dep_line_match_witness :
  "provider:" ∈ [KEY_PACKAGE; KEY_DEPENDENCY; KEY_PROVIDER] ∧
  (∃ n, Some "libbar.x86_64" = Some n ∧ token n ∧
        PyStr.split_whitespace "   provider: libbar.x86_64 2.0" !! 0 =
          Some "provider:" ∧
        PyStr.split_whitespace "   provider: libbar.x86_64 2.0" !! 1 = Some n) ∧
  ("provider:" = KEY_DEPENDENCY → Some "2.0" = None) ∧
  ("provider:" ≠ KEY_DEPENDENCY →
   ∃ v, Some "2.0" = Some v ∧ token v ∧
        PyStr.split_whitespace "   provider: libbar.x86_64 2.0" !! 2 = Some v).
Proof.
  apply (split_dep_line_match "   provider: libbar.x86_64 2.0" "provider:"
           (Some "libbar.x86_64") (Some "2.0")).
  reflexivity.
Defined.

(** X4: [split_dep_line] raises exactly when the line has no token, or
    starts with [package:] or [provider:] and has fewer than three tokens, or
    starts with [dependency:] and has nothing after it; the exception is
    [IndexError].  Tokens after those read are ignored. *)
Theorem split_dep_line_raises_iff (line : string) (e : exn) :
  split_dep_line line = Err e ↔
  e = IndexError ∧
  match PyStr.split_whitespace line with
  | [] => True
  | key :: ws =>
      ((key = KEY_PACKAGE ∨ key = KEY_PROVIDER) ∧ length ws < 2) ∨
      (key = KEY_DEPENDENCY ∧ ws = [])
  end.
Proof.
  unfold split_dep_line, index.
  pose proof (split_whitespace_tokens line) as Ht.
  destruct (PyStr.split_whitespace line) as [|w0 ws]; simpl.
  { split; [by intros [= <-]|by intros [-> _]]. }
  apply Forall_cons in Ht as [H0 Ht]. rewrite (strip_token _ H0).
  destruct ws as [|w1 [|w2 ws]]; simpl;
    repeat case_bool_decide; subst; simpl;
    (split; [intros [= <-]|intros [-> Hcase]]);
    try done; try (split; [done|]); simpl in *;
    try (intuition
           (first [ done | lia
                  | match goal with H : _ |- _ => discriminate H end ])).
Qed.

(** ** More on the methods of the object *)

Lemma sorted_unique (l1 l2 : list string) :
  l1 ≡ₚ l2 → PyStr.sorted l1 = PyStr.sorted l2.
Proof.
  intros Hp. apply (StronglySorted_unique String.le).
  - apply (StronglySorted_merge_sort String.le).
  - apply (StronglySorted_merge_sort String.le).
  - by rewrite !sorted_Permutation.
Qed.

Lemma keys_Permutation {A} (m1 m2 : gmap string A) :
  dom m1 = dom m2 → (map_to_list m1).*1 ≡ₚ (map_to_list m2).*1.
Proof.
  intros Hdom. apply NoDup_Permutation; try apply NoDup_fst_map_to_list.
  intros k. by rewrite !elem_of_keys, <- !elem_of_dom, Hdom.
Qed.

Lemma length_sorted (l : list string) : length (PyStr.sorted l) = length l.
Proof. by rewrite sorted_Permutation. Qed.

(** X5: declaring a dependency that the package already has changes
    nothing: the providers recorded for it stay, and the call only logs a
    debug record and a warning. *)
Theorem add_dependency_existing (self : PkgDep) (key d : string)
    (deps : gmap string (list Provider)) (providers : list Provider) :
  dep self !! key = Some deps →
  deps !! d = Some providers →
  add_dependency key d self =
    MkRun self
      [Log DEBUG ("add_dependency " +:+ key +:+ " " +:+ d);
       Log WARNING ("dependency " +:+ d +:+ " already exists for package "
                    +:+ key)]
      (Ok tt).
Proof.
  intros Hk Hd. unfold add_dependency. run_unfold. rewrite Hk. simpl.
  rewrite bool_decide_eq_false_2; [done|]. by rewrite Hd.
Qed.

Lemma add_dependency_existing_witness :
  add_dependency "foo.x86_64" "libbar" model_mixed =
    MkRun model_mixed
      [Log DEBUG "add_dependency foo.x86_64 libbar";
       Log WARNING "dependency libbar already exists for package foo.x86_64"]
      (Ok tt).
Proof.
  apply (add_dependency_existing model_mixed "foo.x86_64" "libbar"
           {[ "libbar" := [("libbar.i686", "2.0"); ("bar.i686", "1")];
              "libc" := [("glibc.x86_64", "2.17")] ]}
           [("libbar.i686", "2.0"); ("bar.i686", "1")]);
    vm_compute; reflexivity.
Defined.

(** X6: a provider added right after the declaration of its dependency is
    always accepted, whatever the object held: the two calls return
    normally, the package collection is untouched, and the provider list of
    the dependency is what it was before (empty if the dependency is new)
    with the new pair at its end. *)
Theorem add_dependency_then_provider (self : PkgDep)
    (key d provider version : string) :
  let r := bind (add_dependency key d)
             (fun _ => add_provider key d provider version) self in
  outcome r = Ok tt ∧
  pkg (state r) = pkg self ∧
  get_provider_list (state r) key d =
    Ok (match get_provider_list self key d with
        | Ok providers => providers
        | Err _ => []
        end ++ [(provider, version)]).
Proof.
  unfold add_dependency, add_provider, get_provider_list. run_unfold.
  destruct (dep self !! key) as [deps|] eqn:Hk; simpl.
  - destruct (deps !! d) as [providers|] eqn:Hd; simpl.
    + rewrite Hk, Hd. simpl. by rewrite !lookup_insert_eq.
    + rewrite !lookup_insert_eq. simpl. by rewrite !lookup_insert_eq.
  - rewrite !lookup_insert_eq. simpl. rewrite lookup_singleton_eq. simpl.
    by rewrite !lookup_insert_eq.
Qed.

Lemma add_package_state_new (self : PkgDep) (key a v r rp sm : string) :
  pkg self !! key = None →
  state (add_package key a v r rp sm self) =
    MkPkgDep (<[key := MkPkgInfo a v r rp sm]> (pkg self))
             (<[key := ∅]> (dep self)).
Proof.
  intros Hk. unfold add_package. run_unfold.
  by rewrite bool_decide_eq_true_2.
Qed.

Lemma add_package_state_old (self : PkgDep) (key a v r rp sm : string) :
  is_Some (pkg self !! key) →
  state (add_package key a v r rp sm self) = self.
Proof.
  intros [info Hk]. unfold add_package. run_unfold.
  rewrite bool_decide_eq_false_2; [done|]. by rewrite Hk.
Qed.

(** X7: after [add_package] the key is an internal package and each
    accessor returns the attribute of the first definition of the key: the
    one the object already had, or the one of this call when the key is new,
    in which case the dependency list of the key is empty. *)
Theorem add_package_lookup (self : PkgDep) (key a v r rp sm : string) :
  let self' := state (add_package key a v r rp sm self) in
  let info := default (MkPkgInfo a v r rp sm) (pkg self !! key) in
  internal_package self' key = true ∧
  get_arch self' key = Ok (arch info) ∧
  get_version self' key = Ok (version info) ∧
  get_release self' key = Ok (release info) ∧
  get_repository self' key = Ok (repository info) ∧
  get_summary self' key = Ok (summary info) ∧
  (pkg self !! key = None → get_dependency_list self' key = Ok []).
Proof.
  intros self' info. unfold self', info.
  unfold internal_package, get_arch, get_version, get_release,
    get_repository, get_summary, get_field, get_dependency_list.
  destruct (pkg self !! key) as [info0|] eqn:Hk.
  - rewrite add_package_state_old by (by eexists). rewrite Hk. simpl.
    split_and!; try done; by apply bool_decide_eq_true_2.
  - rewrite add_package_state_new by done. simpl.
    rewrite !lookup_insert_eq, map_to_list_empty.
    split_and!; try done; by apply bool_decide_eq_true_2.
Qed.

(** X8: an accessor raises exactly when the key is not an internal
    package, and the five accessors raise the same [ValueError]. *)
Theorem accessors_raise_iff (self : PkgDep) (key : string) :
  let e := ValueError ("package " +:+ key +:+ " does not exist") in
  (internal_package self key = false ↔ get_arch self key = Err e) ∧
  (internal_package self key = false ↔ get_version self key = Err e) ∧
  (internal_package self key = false ↔ get_release self key = Err e) ∧
  (internal_package self key = false ↔ get_repository self key = Err e) ∧
  (internal_package self key = false ↔ get_summary self key = Err e) ∧
  (internal_package self key = true ↔
   ∃ info, pkg self !! key = Some info ∧
     get_arch self key = Ok (arch info) ∧
     get_version self key = Ok (version info) ∧
     get_release self key = Ok (release info) ∧
     get_repository self key = Ok (repository info) ∧
     get_summary self key = Ok (summary info)).
Proof.
  unfold internal_package, get_arch, get_version, get_release,
    get_repository, get_summary, get_field.
  destruct (pkg self !! key) as [info|] eqn:Hk; simpl.
  - split_and!; try done. split; [|done]. intros _. by exists info.
  - split_and!; try done. split; [done|]. by intros (? & ? & _).
Qed.

(** X9: the size queries agree with the list queries: [dependency_count]
    is the length of [get_dependency_list] and [provider_count] the length
    of [get_provider_list], and each raises the same [ValueError] as its
    list query. *)
Theorem counts_agree (self : PkgDep) (key d : string) :
  dependency_count self key =
    (d_list ← get_dependency_list self key; mret (length d_list)) ∧
  provider_count self key d =
    (providers ← get_provider_list self key d; mret (length providers)).
Proof.
  unfold dependency_count, provider_count, get_dependency_list,
    get_provider_list.
  destruct (dep self !! key) as [deps|]; simpl; [|done]. split.
  - rewrite length_sorted, length_fmap. unfold mret, result_ret. f_equal.
    by rewrite length_map_to_list.
  - by destruct (deps !! d).
Qed.

(** X10: [add_provider] never changes which dependencies are declared:
    whether it raises or not, the package collection and every dependency
    list are what they were. *)
Theorem add_provider_keeps_dependencies (self : PkgDep)
    (key d provider version : string) :
  let self' := state (add_provider key d provider version self) in
  pkg self' = pkg self ∧
  ∀ k, get_dependency_list self' k = get_dependency_list self k.
Proof.
  unfold add_provider, get_dependency_list. run_unfold.
  destruct (dep self !! key) as [deps|] eqn:Hk; simpl; [|done].
  destruct (deps !! d) as [providers|] eqn:Hd; simpl; [|done].
  split; [done|]. intros k. destruct (decide (k = key)) as [->|Hne].
  - rewrite lookup_insert_eq, Hk. f_equal. apply sorted_unique, keys_Permutation.
    rewrite dom_insert_L. apply elem_of_dom_2 in Hd.
    apply subseteq_union_1_L. by apply singleton_subseteq_l.
  - by rewrite lookup_insert_ne.
Qed.

(** ** More on the parsers *)

Lemma bind_run {A B} (m : M A) (k : A → M B) self s1 t1 a :
  m self = MkRun s1 t1 (Ok a) →
  bind m k self =
    MkRun (state (k a s1)) (t1 ++ trace (k a s1)) (outcome (k a s1)).
Proof. intros H. unfold bind. by rewrite H. Qed.

(** X11: on the object that [parse_files] leaves, whatever the files held,
    the queries of the renderers are defined for every internal package: the
    effective dependency list can be read for both values of the flag, and
    so can the provider list of each of its dependencies. *)
Theorem parse_files_queries_defined (f_info f_dep : list string)
    (key : string) (include_all : bool) :
  let self := state (parse_files f_info f_dep) in
  internal_package self key = true →
  ∃ d_list,
    get_dep_list self key include_all = Ok d_list ∧
    ∀ d, d ∈ d_list → ∃ providers, get_provider_list self key d = Ok providers.
Proof.
  intros self Hint. pose proof (parse_files_entries f_info f_dep) as Hwf.
  fold self in Hwf. apply bool_decide_eq_true in Hint.
  assert (is_Some (dep self !! key)) as [deps Hdeps].
  { by apply elem_of_dom, Hwf, elem_of_dom. }
  destruct (get_dep_list_declared self key deps include_all Hdeps)
    as (d_list & Hd & Hsub).
  exists d_list. split; [done|]. intros d Hin.
  assert (is_Some (deps !! d)) as [providers Hp].
  { apply elem_of_keys, elem_of_sorted. by eapply elem_of_sublist. }
  exists providers. unfold get_provider_list. by rewrite Hdeps, Hp.
Qed.

Lemma parse_files_queries_defined_witness :
  ∃ d_list,
    get_dep_list
      (state (parse_files ["Name: foo"; "Arch: x86_64"]
                ["package: foo.x86_64 1.0"; "dependency: libbar"; ""]))
      "foo.x86_64" true = Ok d_list ∧
    ∀ d, d ∈ d_list → ∃ providers,
      get_provider_list
        (state (parse_files ["Name: foo"; "Arch: x86_64"]
                  ["package: foo.x86_64 1.0"; "dependency: libbar"; ""]))
        "foo.x86_64" d = Ok providers.
Proof.
  apply (parse_files_queries_defined ["Name: foo"; "Arch: x86_64"]
           ["package: foo.x86_64 1.0"; "dependency: libbar"; ""]
           "foo.x86_64" true).
  vm_compute. reflexivity.
Defined.

Lemma add_dependency_pkg (key d : string) (self : PkgDep) :
  pkg (state (add_dependency key d self)) = pkg self.
Proof. by rewrite add_dependency_state. Qed.

Lemma add_provider_pkg (key d provider version : string) (self : PkgDep) :
  pkg (state (add_provider key d provider version self)) = pkg self.
Proof.
  unfold add_provider. run_unfold.
  destruct (dep self !! key) as [deps|]; simpl; [|done].
  by destruct (deps !! d).
Qed.

(** X12: the dependency-file parser never touches the package collection,
    on any lines and whether or not it raises: which packages are internal is
    decided by the info file alone. *)
Theorem parse_dep_file_keeps_packages (f : list string) (self : PkgDep) :
  pkg (state (parse_dep_file f self)) = pkg self.
Proof.
  set (I := fun s : PkgDep => pkg s = pkg self).
  assert (preserves I (parse_dep_file f)) as Hp; [|by apply Hp].
  unfold parse_dep_file.
  apply preserves_bind; [|intros ?; by apply preserves_readonly].
  apply preserves_for_fold. intros line v. unfold parse_dep_line.
  apply preserves_bind; [by apply preserves_readonly|]. intros [[key name] ver].
  repeat first
    [ case_bool_decide
    | by apply preserves_readonly
    | (intros s Hs; unfold I in *; by rewrite add_dependency_pkg)
    | (intros s Hs; unfold I in *; by rewrite add_provider_pkg)
    | apply preserves_bind; [|intros ?] ].
Qed.

Lemma add_package_keeps (k : string) (info : PkgInfo)
    (key a v r rp sm : string) :
  preserves (fun s => pkg s !! k = Some info) (add_package key a v r rp sm).
Proof.
  intros self Hk. destruct (pkg self !! key) as [info'|] eqn:Hkey.
  - by rewrite add_package_state_old by (by eexists).
  - rewrite add_package_state_new by done. simpl.
    rewrite lookup_insert_ne; [done|]. by intros ->; simplify_eq.
Qed.

(** X13: the info-file parser never changes or removes a package that the
    object already has: whatever the lines say, and whether or not parsing
    raises, the first definition of a key stays. *)
Theorem parse_info_file_keeps_first (f : list string) (self : PkgDep)
    (k : string) (info : PkgInfo) :
  pkg self !! k = Some info →
  pkg (state (parse_info_file f self)) !! k = Some info.
Proof.
  set (I := fun s : PkgDep => pkg s !! k = Some info).
  assert (preserves I (parse_info_file f)) as Hp; [|by apply Hp].
  unfold parse_info_file, flush.
  apply preserves_bind; [|intros ?; apply add_package_keeps].
  apply preserves_for_fold. intros line v. unfold parse_info_line, found, flush.
  apply preserves_bind; [by apply preserves_readonly|]. intros [key name].
  repeat first
    [ case_bool_decide
    | apply add_package_keeps
    | by apply preserves_readonly
    | apply preserves_bind; [|intros ?] ].
Qed.

Lemma parse_info_file_keeps_first_witness :
  pkg (state (parse_info_file ["Name: foo"; "Arch: x86_64"; "Version: 9"]
                model_foo))
    !! "foo.x86_64" = Some (MkPkgInfo "x86_64" "1.0" "1" "base" "a tool").
Proof.
  apply (parse_info_file_keeps_first
           ["Name: foo"; "Arch: x86_64"; "Version: 9"] model_foo).
  vm_compute. reflexivity.
Defined.

Lemma parse_info_line_name_undefined (line name : string) (v : InfoVars)
    (self : PkgDep) :
  split_info_line line = Ok (Some KEY_NAME, Some name) →
  pkg_name v = UNDEFINED →
  parse_info_line line v self =
    MkRun self [Log DEBUG ("found package " +:+ name)]
      (Ok (MkInfoVars name UNDEFINED UNDEFINED UNDEFINED UNDEFINED UNDEFINED)).
Proof.
  intros Hline Hv. unfold parse_info_line. run_unfold. rewrite Hline. simpl.
  rewrite bool_decide_eq_false_2; [done|]. by intros [].
Qed.








(** ** More on the csv renderer *)

Lemma split_app_sep_general (sep : ascii) (s t : string) :
  PyStr.split sep (s +:+ String sep t) = PyStr.split sep s ++ PyStr.split sep t.
Proof.
  induction s as [|c s IH].
  - change ("" +:+ String sep t) with (String sep t). simpl.
    by rewrite Ascii.eqb_refl.
  - change (String c s +:+ String sep t) with (String c (s +:+ String sep t)).
    simpl. rewrite IH. destruct (Ascii.eqb c sep); [done|].
    pose proof (split_not_nil sep s) as Hne.
    by destruct (PyStr.split sep s).
Qed.

Lemma contains_replace (old new : ascii) (s : string) :
  Ascii.eqb new old = false →
  PyStr.contains old (PyStr.replace old new s) = false.
Proof.
  intros Hne. induction s as [|c s IH]; simpl; [done|].
  rewrite IH. destruct (Ascii.eqb c old) eqn:Hc; by rewrite ?Hne, ?Hc.
Qed.

(** X16: when the key, version, release, architecture and repository of a
    package hold no comma, its csv line splits on [','] into exactly those
    five columns and the summary with its commas replaced by spaces; the row
    of a package without effective dependencies has [---] as seventh
    column. *)
Theorem csv_pkg_line_columns (self : PkgDep) (key : string) (info : PkgInfo) :
  pkg self !! key = Some info →
  PyStr.contains "," key = false →
  PyStr.contains "," (version info) = false →
  PyStr.contains "," (release info) = false →
  PyStr.contains "," (arch info) = false →
  PyStr.contains "," (repository info) = false →
  ∃ pkg_line,
    csv_pkg_line self key = Ok pkg_line ∧
    PyStr.split "," pkg_line =
      [key; version info; release info; arch info; repository info;
       PyStr.replace "," " " (summary info)] ∧
    PyStr.split "," (pkg_line +:+ ",---") =
      [key; version info; release info; arch info; repository info;
       PyStr.replace "," " " (summary info); "---"].
Proof.
  intros Hk Hkey Hv Hr Ha Hp. eexists. split; [by apply csv_pkg_line_ok|].
  assert (∀ s rest, PyStr.contains "," s = false →
            PyStr.split "," (s +:+ "," +:+ rest) = s :: PyStr.split "," rest)
    as Hstep by (intros s rest Hs; by apply split_app_sep).
  assert (PyStr.split "," (PyStr.replace "," " " (summary info)) =
            [PyStr.replace "," " " (summary info)]) as Hsum.
  { apply split_no_sep. by apply contains_replace. }
  split.
  - by rewrite !Hstep, Hsum.
  - change (?s +:+ ",---") with (s +:+ String "," "---").
    rewrite split_app_sep_general. by rewrite !Hstep, Hsum.
Qed.

Lemma csv_pkg_line_columns_witness :
  ∃ pkg_line,
    csv_pkg_line model_foo "foo.x86_64" = Ok pkg_line ∧
    PyStr.split "," pkg_line =
      ["foo.x86_64"; "1.0"; "1"; "x86_64"; "base";
       PyStr.replace "," " " "a tool"] ∧
    PyStr.split "," (pkg_line +:+ ",---") =
      ["foo.x86_64"; "1.0"; "1"; "x86_64"; "base";
       PyStr.replace "," " " "a tool"; "---"].
Proof.
  apply (csv_pkg_line_columns model_foo "foo.x86_64"
           (MkPkgInfo "x86_64" "1.0" "1" "base" "a tool"));
    vm_compute; reflexivity.
Defined.

Lemma for_each_printed {A} (l : list A) (body : A → M unit) (self : PkgDep)
    (f : A → nat) :
  (∀ x, x ∈ l → ∃ rows,
     body x self = MkRun self (Print <$> rows) (Ok tt) ∧ length rows = f x) →
  ∃ rows, for_each l body self = MkRun self (Print <$> rows) (Ok tt) ∧
          length rows = sum_list (f <$> l).
Proof.
  induction l as [|x l IH]; intros Hl.
  - by exists [].
  - destruct (Hl x) as (rows1 & Hrun1 & Hlen1); [left|].
    destruct IH as (rows2 & Hrun2 & Hlen2); [intros y Hy; apply Hl; by right|].
    exists (rows1 ++ rows2). simpl.
    rewrite (bind_run _ _ _ _ _ _ Hrun1), Hrun2. simpl.
    by rewrite fmap_app, length_app, Hlen1, Hlen2.
Qed.

Lemma sum_list_ones {A} (l : list A) : sum_list ((fun _ => 1) <$> l) = length l.
Proof. induction l; simpl; by f_equal. Qed.

Lemma csv_package_printed (self : PkgDep) (print_all : bool) (key : string) :
  entries self →
  is_Some (pkg self !! key) →
  ∃ rows,
    csv_package print_all key self = MkRun self (Print <$> rows) (Ok tt) ∧
    length rows = 1 `max` length (effective self print_all key).
Proof.
  intros Hwf [info Hinfo].
  assert (is_Some (dep self !! key)) as [deps Hdeps].
  { apply elem_of_dom, Hwf, elem_of_dom. by eexists. }
  destruct (get_dep_list_declared self key deps print_all Hdeps)
    as (d_list & Hd & Hsub).
  unfold effective, csv_package. run_unfold.
  rewrite (csv_pkg_line_ok _ _ _ Hinfo), Hd. simpl.
  case_bool_decide as Hlen.
  - eexists [_]. split; [done|]. by rewrite Hlen.
  - match goal with |- context [for_each d_list ?b] =>
      destruct (for_each_printed d_list b self (fun _ => 1))
        as (rows & Hrun & Hrows)
    end.
    + intros d Hin.
      assert (is_Some (deps !! d)) as [providers Hp].
      { apply elem_of_keys, elem_of_sorted. by eapply elem_of_sublist. }
      unfold get_provider_list. run_unfold. rewrite Hdeps, Hp. simpl.
      by eexists [_].
    + exists rows. rewrite Hrun. split; [done|].
      rewrite Hrows, sum_list_ones. lia.
Qed.

(** X17: on an object where every package has a dependency entry (every
    object the parsers build), [output_csv] returns normally, leaves the
    object as it was and prints only lines: the header, then for each package
    one line per effective dependency, and one line for a package without
    any. *)
Theorem output_csv_lines (self : PkgDep) (print_all : bool) :
  entries self →
  ∃ rows,
    output_csv print_all self =
      MkRun self (Print csv_header :: (Print <$> rows)) (Ok tt) ∧
    length rows =
      sum_list ((fun key => 1 `max` length (effective self print_all key))
                  <$> PyStr.sorted (map_to_list (pkg self)).*1).
Proof.
  intros Hwf.
  destruct (for_each_printed (PyStr.sorted (map_to_list (pkg self)).*1)
              (csv_package print_all) self
              (fun key => 1 `max` length (effective self print_all key)))
    as (rows & Hrun & Hlen).
  { intros k Hk. apply csv_package_printed; [done|].
    by apply elem_of_keys, elem_of_sorted. }
  exists rows. split; [|done].
  unfold output_csv. run_unfold. by rewrite Hrun.
Qed.

Lemma output_csv_lines_witness :
  ∃ rows,
    output_csv true model_mixed =
      MkRun model_mixed (Print csv_header :: (Print <$> rows)) (Ok tt) ∧
    length rows =
      sum_list ((fun key => 1 `max` length (effective model_mixed true key))
                  <$> PyStr.sorted (map_to_list (pkg model_mixed)).*1).
Proof.
  apply (output_csv_lines model_mixed true).
  apply (bool_decide_unpack _). vm_compute. exact I.
Defined.

(** ** The other reports *)

Example output_text_mixed :
  trace (output_text false model_mixed) =
    [Print "Package bar.i686 [1] [2] [i686] [base] [bar]";
     Print "Package foo.x86_64 [1.0] [1] [x86_64] [base] [a tool]";
     Print "  libbar";
     Print "    [libbar.i686, 2.0]";
     Print "    [bar.i686, 1] internal"].
Proof. vm_compute. reflexivity. Qed.

Example output_wiki_mixed :
  trace (output_wiki true model_mixed) =
    Print ("{| class=" +:+ dquote +:+ "wikitable" +:+ dquote) ::
    Print "! # || Package || Version|| Repository || Dependency || Provider || Version || Repository" ::
    Print "|-" ::
    Print ("| rowspan=" +:+ dquote +:+ "1" +:+ dquote +:+ " | 1") ::
    Print ("| rowspan=" +:+ dquote +:+ "1" +:+ dquote +:+ " | <span id="
           +:+ dquote +:+ "bar.i686" +:+ dquote +:+ ">bar.i686</span>") ::
    Print ("| rowspan=" +:+ dquote +:+ "1" +:+ dquote +:+ " | 1") ::
    Print ("| rowspan=" +:+ dquote +:+ "1" +:+ dquote +:+ " | base") ::
    Print "| ---" :: Print "| ---" :: Print "| ---" :: Print "| ---" ::
    Print "|-" ::
    Print ("| rowspan=" +:+ dquote +:+ "3" +:+ dquote +:+ " | 2") ::
    Print ("| rowspan=" +:+ dquote +:+ "3" +:+ dquote +:+ " | <span id="
           +:+ dquote +:+ "foo.x86_64" +:+ dquote +:+ ">foo.x86_64</span>") ::
    Print ("| rowspan=" +:+ dquote +:+ "3" +:+ dquote +:+ " | 1.0") ::
    Print ("| rowspan=" +:+ dquote +:+ "3" +:+ dquote +:+ " | base") ::
    Print ("| rowspan=" +:+ dquote +:+ "2" +:+ dquote +:+ " | libbar") ::
    Print "| libbar.i686" :: Print "| 2.0" :: Print "| " :: Print "|-" ::
    Print "| [[#bar.i686|bar.i686]]" :: Print "| 1" :: Print "| base" ::
    Print "|-" ::
    Print ("| rowspan=" +:+ dquote +:+ "1" +:+ dquote +:+ " | libc") ::
    Print "| glibc.x86_64" :: Print "| 2.17" :: Print "| " :: Print "|-" ::
    [Print "|}"].
Proof. vm_compute. reflexivity. Qed.

Lemma for_each_print (l : list string) (self : PkgDep) :
  for_each l print self = MkRun self (Print <$> l) (Ok tt).
Proof.
  induction l as [|x l IH]; [done|]. simpl. unfold bind. simpl.
  by rewrite IH.
Qed.

(** X18: [package_count] never raises and leaves the object as it was; it
    prints every package key once, in strictly ascending order, and returns
    the number of keys, which is the number of lines it printed. *)
Theorem package_count_spec (self : PkgDep) :
  ∃ keys,
    package_count self = MkRun self (Print <$> keys) (Ok (length keys)) ∧
    StronglySorted PyStr.lt keys ∧
    (∀ k, k ∈ keys ↔ internal_package self k = true) ∧
    length keys = size (pkg self).
Proof.
  exists (PyStr.sorted (map_to_list (pkg self)).*1).
  assert (length (PyStr.sorted (map_to_list (pkg self)).*1) = size (pkg self))
    as Hlen.
  { by rewrite length_sorted, length_fmap, length_map_to_list. }
  split_and!; [|by apply sorted_ascending, NoDup_fst_map_to_list| |done].
  - unfold package_count. run_unfold. rewrite for_each_print. simpl.
    by rewrite Hlen, (right_id_L [] (++)).
  - intros k. rewrite elem_of_sorted, elem_of_keys. unfold internal_package.
    by rewrite bool_decide_eq_true.
Qed.

Lemma text_pkg_line_ok (self : PkgDep) (key : string) (info : PkgInfo) :
  pkg self !! key = Some info →
  text_pkg_line self key =
    Ok ("Package " +:+ key +:+ " [" +:+ version info +:+ "] ["
        +:+ release info +:+ "] [" +:+ arch info +:+ "] ["
        +:+ repository info +:+ "] [" +:+ summary info +:+ "]").
Proof.
  intros Hk. unfold text_pkg_line, get_version, get_release, get_arch,
    get_repository, get_summary, get_field. by rewrite Hk.
Qed.

Lemma providers_of_ok (self : PkgDep) (key d : string)
    (deps : gmap string (list Provider)) (providers : list Provider) :
  dep self !! key = Some deps → deps !! d = Some providers →
  get_provider_list self key d = Ok providers ∧
  providers_of self key d = providers.
Proof.
  intros Hk Hd. unfold providers_of, get_provider_list. by rewrite Hk, Hd.
Qed.

Lemma text_package_printed (self : PkgDep) (print_all : bool) (key : string) :
  entries self →
  is_Some (pkg self !! key) →
  ∃ rows,
    text_package print_all key self = MkRun self (Print <$> rows) (Ok tt) ∧
    length rows =
      1 + sum_list ((fun d => 1 + length (providers_of self key d))
                      <$> effective self print_all key).
Proof.
  intros Hwf [info Hinfo].
  assert (is_Some (dep self !! key)) as [deps Hdeps].
  { apply elem_of_dom, Hwf, elem_of_dom. by eexists. }
  destruct (get_dep_list_declared self key deps print_all Hdeps)
    as (d_list & Hd & Hsub).
  unfold effective, text_package. run_unfold.
  rewrite (text_pkg_line_ok _ _ _ Hinfo), Hd. simpl.
  case_bool_decide as Hlen.
  - eexists [_]. split; [done|].
    apply nil_length_inv in Hlen as ->. done.
  - match goal with |- context [for_each d_list ?b] =>
      destruct (for_each_printed d_list b self
                  (fun d => 1 + length (providers_of self key d)))
        as (rows & Hrun & Hrows)
    end.
    + intros d Hin.
      assert (is_Some (deps !! d)) as [providers Hp].
      { apply elem_of_keys, elem_of_sorted. by eapply elem_of_sublist. }
      destruct (providers_of_ok self key d deps providers Hdeps Hp)
        as [Hget ->].
      run_unfold. rewrite Hget. simpl.
      match goal with |- context [for_each providers ?b] =>
        destruct (for_each_printed providers b self (fun _ => 1))
          as (rows & Hrun & Hrows)
      end.
      { intros [p_name p_version] _. by eexists [_]. }
      rewrite Hrun. simpl. eexists (_ :: rows). split; [done|].
      simpl. by rewrite Hrows, sum_list_ones.
    + rewrite Hrun. simpl. eexists (_ :: rows). split; [done|].
      simpl. by rewrite Hrows.
Qed.

(** X19: on an object where every package has a dependency entry,
    [output_text] returns normally, leaves the object as it was and prints
    only lines: for each package its line, then for each effective dependency
    its line followed by one line per provider. *)
Theorem output_text_lines (self : PkgDep) (print_all : bool) :
  entries self →
  ∃ rows,
    output_text print_all self = MkRun self (Print <$> rows) (Ok tt) ∧
    length rows =
      sum_list
        ((fun key =>
            1 + sum_list ((fun d => 1 + length (providers_of self key d))
                            <$> effective self print_all key))
           <$> PyStr.sorted (map_to_list (pkg self)).*1).
Proof.
  intros Hwf.
  match goal with |- context [sum_list (?f <$> _)] =>
    destruct (for_each_printed (PyStr.sorted (map_to_list (pkg self)).*1)
                (text_package print_all) self f) as (rows & Hrun & Hlen)
  end.
  { intros k Hk. apply text_package_printed; [done|].
    by apply elem_of_keys, elem_of_sorted. }
  exists rows. split; [|done].
  unfold output_text. run_unfold. by rewrite Hrun.
Qed.

Lemma output_text_lines_witness :
  ∃ rows,
    output_text true model_mixed = MkRun model_mixed (Print <$> rows) (Ok tt) ∧
    length rows =
      sum_list
        ((fun key =>
            1 + sum_list ((fun d => 1 + length (providers_of model_mixed key d))
                            <$> effective model_mixed true key))
           <$> PyStr.sorted (map_to_list (pkg model_mixed)).*1).
Proof.
  apply (output_text_lines model_mixed true).
  apply (bool_decide_unpack _). vm_compute. exact I.
Defined.

(** X20: on an object where every package has a dependency entry,
    [print_packages_and_dependencies] returns normally and leaves the object
    as it was; after its separator it prints, for each package, the package
    line and every declared dependency, internal or not, with one line per
    provider: as many lines as [output_text] prints with [print_all]. *)
Theorem print_packages_and_dependencies_lines (self : PkgDep) :
  entries self →
  ∃ rows,
    print_packages_and_dependencies self =
      MkRun self
        (Print (String "010" "" +:+ str_mul "-" 80) :: (Print <$> rows))
        (Ok tt) ∧
    length rows =
      sum_list
        ((fun key =>
            1 + sum_list ((fun d => 1 + length (providers_of self key d))
                            <$> effective self true key))
           <$> PyStr.sorted (map_to_list (pkg self)).*1).
Proof.
  intros Hwf. unfold print_packages_and_dependencies.
  match goal with |- context [sum_list (?f <$> _)] => set (count := f) end.
  match goal with |- context [for_each _ ?b] => set (body := b) end.
  destruct (for_each_printed (PyStr.sorted (map_to_list (pkg self)).*1)
              body self count) as (rows & Hrun & Hlen).
  { intros key Hk. apply elem_of_sorted, elem_of_keys in Hk as [info Hinfo].
    assert (is_Some (dep self !! key)) as [deps Hdeps].
    { apply elem_of_dom, Hwf, elem_of_dom. by eexists. }
    unfold body, count, effective. rewrite get_dep_list_all.
    run_unfold.
    rewrite (text_pkg_line_ok _ _ _ Hinfo),
      (get_dependency_list_ok _ _ _ Hdeps). simpl.
    match goal with |- context [for_each ?l ?b] =>
      destruct (for_each_printed l b self
                  (fun d => 1 + length (providers_of self key d)))
        as (rows & Hrun & Hrows)
    end.
    - intros d Hin.
      apply elem_of_sorted, elem_of_keys in Hin as [providers Hp].
      destruct (providers_of_ok self key d deps providers Hdeps Hp)
        as [Hget ->].
      run_unfold. rewrite Hget. simpl.
      match goal with |- context [for_each providers ?b] =>
        destruct (for_each_printed providers b self (fun _ => 1))
          as (rows & Hrun & Hrows)
      end.
      { intros [p_name p_version] _. by eexists [_]. }
      rewrite Hrun. simpl. eexists (_ :: rows). split; [done|].
      simpl. by rewrite Hrows, sum_list_ones.
    - rewrite Hrun. simpl. eexists (_ :: rows). split; [done|].
      simpl. by rewrite Hrows. }
  exists rows. split; [|done]. run_unfold. by rewrite Hrun.
Qed.

Lemma print_packages_and_dependencies_lines_witness :
  ∃ rows,
    print_packages_and_dependencies model_mixed =
      MkRun model_mixed
        (Print (String "010" "" +:+ str_mul "-" 80) :: (Print <$> rows))
        (Ok tt) ∧
    length rows =
      sum_list
        ((fun key =>
            1 + sum_list ((fun d => 1 + length (providers_of model_mixed key d))
                            <$> effective model_mixed true key))
           <$> PyStr.sorted (map_to_list (pkg model_mixed)).*1).
Proof.
  apply (print_packages_and_dependencies_lines model_mixed).
  apply (bool_decide_unpack _). vm_compute. exact I.
Defined.

(** ** The wiki table *)

Lemma rows_ended_app (t1 t2 : list event) :
  rows_ended (t1 ++ t2) = rows_ended t1 + rows_ended t2.
Proof. unfold rows_ended. by rewrite filter_app, length_app. Qed.

Lemma rows_ended_end (t : list event) :
  rows_ended (Print "|-" :: t) = S (rows_ended t).
Proof. unfold rows_ended. by rewrite filter_cons_True. Qed.

(** A cell is never taken for the end of a row. *)
Lemma rows_ended_cell (s : string) (t : list event) :
  rows_ended (Print ("| " +:+ s) :: t) = rows_ended t.
Proof.
  unfold rows_ended. rewrite filter_cons_False; [done|].
  intros H. cbv [String.append] in H. discriminate H.
Qed.

Lemma for_each_rows {A} (l : list A) (body : A → M unit) (self : PkgDep)
    (f : A → nat) :
  (∀ x, x ∈ l → ∃ t,
     body x self = MkRun self t (Ok tt) ∧ rows_ended t = f x) →
  ∃ t, for_each l body self = MkRun self t (Ok tt) ∧
       rows_ended t = sum_list (f <$> l).
Proof.
  induction l as [|x l IH]; intros Hl.
  - by exists [].
  - destruct (Hl x) as (t1 & Hrun1 & Hlen1); [left|].
    destruct IH as (t2 & Hrun2 & Hlen2); [intros y Hy; apply Hl; by right|].
    exists (t1 ++ t2). simpl.
    rewrite (bind_run _ _ _ _ _ _ Hrun1), Hrun2. simpl.
    by rewrite rows_ended_app, Hlen1, Hlen2.
Qed.

Lemma wiki_provider_rows (provider : Provider) (self : PkgDep) :
  ∃ t, wiki_provider provider self = MkRun self t (Ok tt) ∧ rows_ended t = 1.
Proof.
  destruct provider as [p_name p_version]. unfold wiki_provider.
  assert (∃ r, except_ValueError (get_repository self p_name) "" = Ok r)
    as [r Hr].
  { unfold get_repository, get_field.
    destruct (pkg self !! p_name); by eexists. }
  run_unfold. rewrite Hr. simpl. eexists. split; [done|].
  by rewrite !rows_ended_cell, rows_ended_end.
Qed.

Lemma provider_count_ok (self : PkgDep) (key d : string)
    (deps : gmap string (list Provider)) (providers : list Provider) :
  dep self !! key = Some deps → deps !! d = Some providers →
  provider_count self key d = Ok (length providers).
Proof. intros Hk Hd. unfold provider_count. by rewrite Hk, Hd. Qed.

Lemma wiki_row_span_inner (self : PkgDep) (key : string)
    (deps : gmap string (list Provider)) (l : list string)
    (m : gmap string nat) (n : nat) :
  dep self !! key = Some deps →
  (∀ d, d ∈ l → is_Some (deps !! d)) →
  m !! key = Some n →
  for_fold l
    (fun dep_name row_span =>
       bind (query (fun dep => provider_count dep key dep_name))
         (fun c => ret (<[key := item row_span key + c]> row_span)))
    m self =
  MkRun self []
    (Ok (<[key := n + sum_list ((fun d => length (providers_of self key d))
                                  <$> l)]> m)).
Proof.
  intros Hdeps. revert m n. induction l as [|d l IH]; intros m n Hl Hm.
  - simpl. unfold ret. f_equal. f_equal.
    rewrite Nat.add_0_r. by rewrite insert_id.
  - destruct (Hl d) as [providers Hp]; [left|].
    destruct (providers_of_ok self key d deps providers Hdeps Hp) as [_ Hof].
    assert (bind (query (fun dep => provider_count dep key d))
              (fun c => ret (<[key := item m key + c]> m)) self =
            MkRun self [] (Ok (<[key := item m key + length providers]> m)))
      as Hbody.
    { unfold bind, query, ret. cbn [state trace outcome].
      by rewrite (provider_count_ok _ _ _ _ _ Hdeps Hp). }
    simpl. rewrite (bind_run _ _ _ _ _ _ Hbody).
    rewrite (IH (<[key := item m key + length providers]> m)
               (n + length providers)).
    + cbn [state trace outcome]. rewrite insert_insert_eq, Hof.
      by rewrite (assoc_L Nat.add).
    + intros d' Hd'. apply Hl. by right.
    + unfold item. rewrite Hm. simpl. apply lookup_insert_eq.
Qed.

Lemma wiki_row_span_package_ok (self : PkgDep) (print_all : bool)
    (key : string) (row_span : gmap string nat) :
  entries self →
  is_Some (pkg self !! key) →
  wiki_row_span_package print_all key row_span self =
    MkRun self []
      (Ok (<[key := provider_rows self print_all key `max` 1]> row_span)).
Proof.
  intros Hwf [info Hinfo].
  assert (is_Some (dep self !! key)) as [deps Hdeps].
  { apply elem_of_dom, Hwf, elem_of_dom. by eexists. }
  destruct (get_dep_list_declared self key deps print_all Hdeps)
    as (d_list & Hd & Hsub).
  assert (query (fun dep => get_dep_list dep key print_all) self =
            MkRun self [] (Ok d_list)) as Hq.
  { unfold query. by rewrite Hd. }
  assert (∀ d, d ∈ d_list → is_Some (deps !! d)) as Hdecl.
  { intros d Hin'. apply elem_of_keys, elem_of_sorted.
    by eapply elem_of_sublist. }
  pose proof (wiki_row_span_inner self key deps d_list
                (<[key := 0]> row_span) 0 Hdeps Hdecl
                (lookup_insert_eq _ _ _)) as Hin.
  unfold wiki_row_span_package, provider_rows, effective. rewrite Hd.
  rewrite (bind_run _ _ _ _ _ _ Hq).
  rewrite (bind_run _ _ _ _ _ _ Hin).
  unfold ret, item. cbn [state trace outcome].
  rewrite lookup_insert_eq. simpl. by rewrite !insert_insert_eq.
Qed.

Lemma foldl_insert_lookup {A} (val : string → A) (l : list string)
    (m : gmap string A) (k : string) :
  foldl (fun m k => <[k := val k]> m) m l !! k =
    if decide (k ∈ l) then Some (val k) else m !! k.
Proof.
  revert m. induction l as [|x l IH]; intros m; cbn [foldl].
  - by rewrite decide_False by apply not_elem_of_nil.
  - rewrite IH. destruct (decide (k ∈ l)) as [Hin|Hin].
    + rewrite decide_True; [done|by right].
    + destruct (decide (k = x)) as [->|Hne].
      * rewrite decide_True by left. apply lookup_insert_eq.
      * rewrite decide_False by (by intros [?|?]%elem_of_cons).
        by apply lookup_insert_ne.
Qed.

Lemma wiki_row_span_fold (self : PkgDep) (print_all : bool)
    (keys : list string) (m : gmap string nat) :
  entries self →
  (∀ k, k ∈ keys → is_Some (pkg self !! k)) →
  for_fold keys (wiki_row_span_package print_all) m self =
    MkRun self []
      (Ok (foldl (fun m k => <[k := provider_rows self print_all k `max` 1]> m)
             m keys)).
Proof.
  intros Hwf. revert m. induction keys as [|k keys IH]; intros m Hk; [done|].
  simpl. unfold bind.
  rewrite wiki_row_span_package_ok by (done || apply Hk; left).
  cbn [state trace outcome]. rewrite IH by (intros; apply Hk; by right).
  done.
Qed.

(** X21: on an object where every package has a dependency entry, the first
    loop of [output_wiki] prints nothing and gives every package, and no
    other key, a row span: the number of providers over its effective
    dependencies, and 1 when there is none. *)
Theorem wiki_row_span_spec (self : PkgDep) (print_all : bool) :
  entries self →
  ∃ row_span,
    wiki_row_span print_all self = MkRun self [] (Ok row_span) ∧
    dom row_span = dom (pkg self) ∧
    ∀ k, is_Some (pkg self !! k) →
         row_span !! k = Some (provider_rows self print_all k `max` 1) ∧
         (1 ≤ item row_span k)%nat.
Proof.
  intros Hwf. eexists. split_and!.
  - unfold wiki_row_span. unfold bind, get_self. cbn [state trace outcome].
    rewrite wiki_row_span_fold; [done..|].
    intros k Hk. by apply elem_of_keys, elem_of_sorted.
  - apply set_eq. intros k. rewrite !elem_of_dom, foldl_insert_lookup.
    case_decide as Hin.
    + split; [|done]. intros _. by apply elem_of_keys, elem_of_sorted.
    + rewrite lookup_empty. split; [by intros [??]|]. intros Hk.
      destruct Hin. by apply elem_of_sorted, elem_of_keys.
  - intros k Hk.
    assert (k ∈ PyStr.sorted (map_to_list (pkg self)).*1) as Hin.
    { by apply elem_of_sorted, elem_of_keys. }
    unfold item. rewrite foldl_insert_lookup, decide_True by done.
    split; [done|]. simpl. lia.
Qed.

Lemma wiki_row_span_spec_witness :
  ∃ row_span,
    wiki_row_span true model_mixed = MkRun model_mixed [] (Ok row_span) ∧
    dom row_span = dom (pkg model_mixed) ∧
    ∀ k, is_Some (pkg model_mixed !! k) →
         row_span !! k = Some (provider_rows model_mixed true k `max` 1) ∧
         (1 ≤ item row_span k)%nat.
Proof.
  apply (wiki_row_span_spec model_mixed true).
  apply (bool_decide_unpack _). vm_compute. exact I.
Defined.

Lemma emits_bind {A B} (m : M A) (k : A → M B) self t1 a t2 b :
  emits m self t1 a → emits (k a) self t2 b →
  emits (bind m k) self (t1 ++ t2) b.
Proof.
  unfold emits. intros H1 H2. by rewrite (bind_run _ _ _ _ _ _ H1), H2.
Qed.

Lemma emits_print (line : string) self : emits (print line) self [Print line] tt.
Proof. done. Qed.

Lemma emits_ret {A} (a : A) self : emits (ret a) self [] a.
Proof. done. Qed.

Lemma emits_query {A} (q : PkgDep → result A) self a :
  q self = Ok a → emits (query q) self [] a.
Proof. intros H. unfold emits, query. by rewrite H. Qed.

Lemma rows_ended_not_end (line : string) (t : list event) :
  line ≠ "|-" → rows_ended (Print line :: t) = rows_ended t.
Proof.
  intros Hne. unfold rows_ended. rewrite filter_cons_False; [done|].
  by intros [= H].
Qed.

Ltac not_row_end :=
  let H := fresh in
  intros H; cbv [String.append dquote] in H; discriminate H.

Ltac count_rows :=
  repeat first
    [ rewrite rows_ended_end
    | rewrite rows_ended_not_end by not_row_end
    | rewrite rows_ended_app ].

Ltac emits_step :=
  first
    [ apply emits_print
    | apply emits_ret
    | eapply emits_bind; [apply emits_print|]
    | eapply emits_bind; [apply emits_query; eassumption|] ].

Lemma wiki_dependency_rows (self : PkgDep) (key d : string)
    (deps : gmap string (list Provider)) (providers : list Provider) :
  dep self !! key = Some deps → deps !! d = Some providers →
  ∃ t,
    emits
      (bind (query (fun dep => provider_count dep key d)) (fun c =>
       bind (print ("| rowspan=" +:+ dquote +:+ str c +:+ dquote +:+ " | "
                    +:+ d)) (fun _ =>
       bind (query (fun dep => get_provider_list dep key d)) (fun providers =>
         for_each providers wiki_provider)))) self t tt ∧
    rows_ended t = length providers.
Proof.
  intros Hdeps Hp.
  destruct (for_each_rows providers wiki_provider self (fun _ => 1))
    as (t & Hrun & Hrows).
  { intros p _. apply wiki_provider_rows. }
  destruct (providers_of_ok self key d deps providers Hdeps Hp) as [Hget _].
  pose proof (provider_count_ok _ _ _ _ _ Hdeps Hp) as Hcount.
  eexists. split.
  - do 3 emits_step. exact Hrun.
  - simpl. count_rows. by rewrite Hrows, sum_list_ones.
Qed.

Lemma wiki_package_rows (self : PkgDep) (print_all : bool)
    (row_span : gmap string nat) (key : string) (pkg_count : nat) :
  entries self →
  is_Some (pkg self !! key) →
  ∃ t,
    emits (wiki_package print_all row_span key pkg_count) self t
      (pkg_count + 1) ∧
    rows_ended t =
      if bool_decide (effective self print_all key = []) then 1
      else provider_rows self print_all key.
Proof.
  intros Hwf [info Hinfo].
  assert (is_Some (dep self !! key)) as [deps Hdeps].
  { apply elem_of_dom, Hwf, elem_of_dom. by eexists. }
  destruct (get_dep_list_declared self key deps print_all Hdeps)
    as (d_list & Hd & Hsub).
  unfold provider_rows, effective. rewrite Hd.
  assert (get_version self key = Ok (version info)) as Hv.
  { unfold get_version, get_field. by rewrite Hinfo. }
  assert (get_repository self key = Ok (repository info)) as Hr.
  { unfold get_repository, get_field. by rewrite Hinfo. }
  destruct (for_each_rows d_list
              (fun dep_name =>
                 bind (query (fun dep => provider_count dep key dep_name))
                   (fun c =>
                 bind (print ("| rowspan=" +:+ dquote +:+ str c +:+ dquote
                              +:+ " | " +:+ dep_name)) (fun _ =>
                 bind (query (fun dep => get_provider_list dep key dep_name))
                   (fun providers => for_each providers wiki_provider))))
              self (fun d => length (providers_of self key d)))
    as (t & Hrun & Hrows).
  { intros d Hin.
    assert (is_Some (deps !! d)) as [providers Hp].
    { apply elem_of_keys, elem_of_sorted. by eapply elem_of_sublist. }
    destruct (providers_of_ok self key d deps providers Hdeps Hp) as [_ ->].
    by eapply wiki_dependency_rows. }
  unfold wiki_package.
  destruct d_list as [|d0 d_list].
  - eexists. split.
    + do 7 emits_step. cbn [length]. rewrite bool_decide_eq_true_2 by done.
      repeat emits_step.
    + simpl. by count_rows.
  - rewrite (bool_decide_eq_false_2 (_ = [])) by done.
    eexists. split.
    + do 7 emits_step. rewrite bool_decide_eq_false_2 by done.
      eapply emits_bind; [exact Hrun|]. apply emits_ret.
    + simpl app. count_rows. rewrite Hrows. change (rows_ended []) with 0.
      lia.
Qed.

Lemma wiki_row_span_ok (self : PkgDep) (print_all : bool) :
  entries self →
  ∃ row_span,
    emits (wiki_row_span print_all) self [] row_span ∧
    ∀ k, is_Some (pkg self !! k) →
         item row_span k = provider_rows self print_all k `max` 1.
Proof.
  intros Hwf. eexists. split.
  - unfold emits, wiki_row_span. unfold bind, get_self.
    cbn [state trace outcome].
    rewrite wiki_row_span_fold; [done..|].
    intros k Hk. by apply elem_of_keys, elem_of_sorted.
  - intros k Hk.
    assert (k ∈ PyStr.sorted (map_to_list (pkg self)).*1) as Hin.
    { by apply elem_of_sorted, elem_of_keys. }
    unfold item. by rewrite foldl_insert_lookup, decide_True by done.
Qed.

Lemma effective_internal_has_provider (self : PkgDep) (key d : string) :
  d ∈ effective self false key → providers_of self key d ≠ [].
Proof.
  unfold effective, providers_of.
  destruct (dep self !! key) as [deps|] eqn:Hdeps.
  - rewrite (get_dep_list_internal _ _ _ Hdeps).
    intros [Hint _]%list_elem_of_filter. revert Hint.
    unfold internal_dependency.
    destruct (get_provider_list self key d) as [providers|]; simpl; [|done].
    by destruct providers.
  - unfold get_dep_list, get_dependency_list. rewrite Hdeps. simpl.
    by intros ?%elem_of_nil.
Qed.

Lemma sum_list_pos {A} (f : A → nat) (l : list A) :
  l ≠ [] → (∀ x, x ∈ l → 1 ≤ f x)%nat → (1 ≤ sum_list (f <$> l))%nat.
Proof.
  destruct l as [|x l]; [done|]. intros _ Hf. simpl.
  specialize (Hf x (list_elem_of_here _ _)). lia.
Qed.

(** X22: the row span printed in the cells of a package is the number of
    rows printed for it, when each of its effective dependencies has a
    provider; with [print_all] off that is always so, an internal dependency
    having a provider that is a package. *)
Theorem wiki_rowspan_rows (self : PkgDep) (print_all : bool)
    (row_span : gmap string nat) (key : string) (pkg_count : nat) :
  entries self →
  is_Some (pkg self !! key) →
  outcome (wiki_row_span print_all self) = Ok row_span →
  (print_all = false ∨
   ∀ d, d ∈ effective self print_all key → providers_of self key d ≠ []) →
  ∃ t,
    wiki_package print_all row_span key pkg_count self =
      MkRun self t (Ok (pkg_count + 1)) ∧
    rows_ended t = item row_span key ∧
    (1 ≤ item row_span key)%nat.
Proof.
  intros Hwf Hkey Hspan Hprov.
  destruct (wiki_row_span_ok self print_all Hwf) as (rs & Hrs & Hitem).
  unfold emits in Hrs. rewrite Hrs in Hspan. injection Hspan as <-.
  destruct (wiki_package_rows self print_all rs key pkg_count Hwf Hkey)
    as (t & Hrun & Hrows).
  exists t. split; [done|]. rewrite Hrows, (Hitem key Hkey).
  assert (∀ d, d ∈ effective self print_all key →
               providers_of self key d ≠ []) as Hall.
  { destruct Hprov as [->|H]; [|done].
    intros d. apply effective_internal_has_provider. }
  case_bool_decide as Heff.
  - unfold provider_rows. rewrite Heff. simpl. lia.
  - assert (1 ≤ provider_rows self print_all key)%nat.
    { apply sum_list_pos; [done|]. intros d Hd. specialize (Hall d Hd).
      destruct (providers_of self key d); [done|]. simpl. lia. }
    lia.
Qed.

Lemma wiki_rowspan_rows_witness :
  ∃ t,
    wiki_package true {[ "bar.i686" := 1; "foo.x86_64" := 3 ]} "foo.x86_64" 2
      model_mixed = MkRun model_mixed t (Ok (2 + 1)) ∧
    rows_ended t = item {[ "bar.i686" := 1; "foo.x86_64" := 3 ]} "foo.x86_64" ∧
    (1 ≤ item {[ "bar.i686" := 1; "foo.x86_64" := 3 ]} "foo.x86_64")%nat.
Proof.
  apply (wiki_rowspan_rows model_mixed true
           {[ "bar.i686" := 1; "foo.x86_64" := 3 ]} "foo.x86_64" 2).
  - apply (bool_decide_unpack _). vm_compute. exact I.
  - vm_compute. eexists. reflexivity.
  - vm_compute. reflexivity.
  - right. intros d Hd. vm_compute in Hd.
    apply elem_of_cons in Hd as [->|Hd];
      [|apply elem_of_cons in Hd as [->|Hd]; [|by apply elem_of_nil in Hd]];
      vm_compute; discriminate.
Defined.

(** A dependency without any provider breaks the table: its package gets
    the row span 1 and no row. *)
Example wiki_dependency_without_provider :
  let self := state (add_dependency "foo.x86_64" "libqux" model_foo) in
  item (default ∅ (match outcome (wiki_row_span true self) with
                   | Ok m => Some m
                   | Err _ => None
                   end)) "foo.x86_64" = 1 ∧
  rows_ended (trace (wiki_package true {[ "foo.x86_64" := 1 ]} "foo.x86_64" 1
                       self)) = 0.
Proof. split; vm_compute; reflexivity. Qed.

Lemma for_fold_rows {A} (l : list A) (body : A → nat → M nat) (self : PkgDep)
    (f : A → nat) :
  (∀ x v, x ∈ l → ∃ t,
     emits (body x v) self t (v + 1) ∧ rows_ended t = f x) →
  ∀ v, ∃ t, emits (for_fold l body v) self t (v + length l) ∧
            rows_ended t = sum_list (f <$> l).
Proof.
  induction l as [|x l IH]; intros Hl v.
  - exists []. split; [|done]. unfold emits. simpl. by rewrite Nat.add_0_r.
  - destruct (Hl x v) as (t1 & Hrun1 & Hlen1); [left|].
    destruct (IH (fun y w Hy => Hl y w (list_elem_of_further _ _ _ Hy)) (v + 1))
      as (t2 & Hrun2 & Hlen2).
    exists (t1 ++ t2). split.
    + simpl. replace (v + S (length l)) with (v + 1 + length l) by lia.
      by eapply emits_bind.
    + simpl. by rewrite rows_ended_app, Hlen1, Hlen2.
Qed.

Lemma emits_get_self self : emits get_self self [] self.
Proof. done. Qed.

(** X23: on an object where every package has a dependency entry,
    [output_wiki] returns normally and leaves the object as it was; the table
    it prints has one row for the header and, for each package, one row when
    it has no effective dependency and otherwise one row per provider of its
    effective dependencies. *)
Theorem output_wiki_rows (self : PkgDep) (print_all : bool) :
  entries self →
  ∃ t,
    output_wiki print_all self = MkRun self t (Ok tt) ∧
    head t = Some (Print ("{| class=" +:+ dquote +:+ "wikitable" +:+ dquote)) ∧
    last t = Some (Print "|}") ∧
    rows_ended t =
      1 + sum_list
            ((fun key =>
                if bool_decide (effective self print_all key = []) then 1
                else provider_rows self print_all key)
               <$> PyStr.sorted (map_to_list (pkg self)).*1).
Proof.
  intros Hwf.
  destruct (wiki_row_span_ok self print_all Hwf) as (rs & Hrs & _).
  match goal with |- context [sum_list (?f <$> ?keys)] =>
    destruct (for_fold_rows keys (wiki_package print_all rs) self f) with (v := 1)
      as (t & Hrun & Hrows)
  end.
  { intros key v Hin. apply wiki_package_rows; [done|].
    by apply elem_of_keys, elem_of_sorted. }
  eexists. split_and!.
  - unfold output_wiki. do 3 emits_step.
    eapply emits_bind; [exact Hrs|].
    eapply emits_bind; [apply emits_get_self|].
    eapply emits_bind; [exact Hrun|]. apply emits_print.
  - done.
  - cbn [app]. rewrite !app_comm_cons. apply last_snoc.
  - simpl app. count_rows. rewrite Hrows. change (rows_ended []) with 0. lia.
Qed.

Lemma output_wiki_rows_witness :
  ∃ t,
    output_wiki false model_mixed = MkRun model_mixed t (Ok tt) ∧
    head t = Some (Print ("{| class=" +:+ dquote +:+ "wikitable" +:+ dquote)) ∧
    last t = Some (Print "|}") ∧
    rows_ended t =
      1 + sum_list
            ((fun key =>
                if bool_decide (effective model_mixed false key = []) then 1
                else provider_rows model_mixed false key)
               <$> PyStr.sorted (map_to_list (pkg model_mixed)).*1).
Proof.
  apply (output_wiki_rows model_mixed false).
  apply (bool_decide_unpack _). vm_compute. exact I.
Defined.

(** ** The info file as a sequence of records *)

Lemma flush_outcome (v : InfoVars) (self : PkgDep) :
  outcome (flush v self) = Ok tt.
Proof. apply add_package_outcome. Qed.

Lemma parse_info_line_name_flush (line name : string) (v : InfoVars)
    (self : PkgDep) :
  split_info_line line = Ok (Some KEY_NAME, Some name) →
  pkg_name v ≠ UNDEFINED →
  state (parse_info_line line v self) = state (flush v self).
Proof.
  intros Hline Hv. unfold parse_info_line.
  unfold bind at 1, lift at 1. cbn [state trace outcome]. rewrite Hline.
  cbn [state trace outcome]. rewrite (bool_decide_eq_true_2 _ eq_refl).
  rewrite (bool_decide_eq_true_2 _ Hv).
  unfold bind, lift, logging, ret, str_add. cbn [state trace outcome].
  by rewrite flush_outcome.
Qed.

Lemma info_records_run (f : list string) (v : InfoVars) (self : PkgDep) :
  forallb accepted f = true →
  state (bind (for_fold f parse_info_line v) flush self) =
    state (for_each (info_records f v) flush self) ∧
  outcome (bind (for_fold f parse_info_line v) flush self) = Ok tt.
Proof.
  revert v self. induction f as [|line f IH]; intros v self Hf.
  - simpl. unfold bind, ret. cbn [state trace outcome].
    rewrite flush_outcome. cbn [state trace outcome]. split; [done|].
    apply flush_outcome.
  - simpl in Hf. apply andb_prop in Hf as [Hline Hf].
    cbn [for_fold info_records]. rewrite bind_assoc.
    destruct (field_line line) eqn:Hfield.
    + destruct (parse_info_line_field line v self Hfield) as (logs & _ & Hrun).
      rewrite (bind_run _ _ _ _ _ _ Hrun). cbn [state trace outcome].
      by apply IH.
    + unfold accepted in Hline. unfold field_line in Hfield.
      destruct (split_info_line line) as [[key name]|] eqn:Hsplit; [|done].
      apply bool_decide_eq_false in Hfield. apply dec_stable in Hfield.
      subst key.
      destruct (split_info_line_shape _ _ _ Hsplit)
        as [[? _]|(k & n & [= <-] & -> & _)]; [done|].
      pose proof (parse_info_line_name line n v self Hsplit) as Hout.
      rewrite (bind_ok _ _ _ _ Hout). cbn [state trace outcome].
      destruct (IH (MkInfoVars n UNDEFINED UNDEFINED UNDEFINED UNDEFINED
                      UNDEFINED)
                  (state (parse_info_line line v self)) Hf) as [Hs Ho].
      split; [|done]. rewrite Hs, for_each_app.
      case_bool_decide as Hv.
      * rewrite (parse_info_line_name_flush _ _ _ _ Hsplit Hv).
        cbn [for_each]. rewrite bind_assoc.
        rewrite (bind_ok _ _ _ _ (flush_outcome v self)).
        cbn [state trace outcome]. unfold bind at 1, ret.
        by cbn [state trace outcome].
      * rewrite (parse_info_line_name_undefined _ _ _ _ Hsplit Hv).
        cbn [for_each state]. unfold bind at 1, ret.
        by cbn [state trace outcome].
Qed.

(** X25: when the classifier accepts every line, [parse_info_file] returns
    normally and leaves the object that results from handing the records of
    the input to [add_package] one after the other, in the order of the file:
    a record is what has been accumulated when the next [Name] line or the
    end of the input is reached. *)
Theorem parse_info_file_records (f : list string) (self : PkgDep) :
  forallb accepted f = true →
  state (parse_info_file f self) =
    state (for_each (info_records f InfoVars_init) flush self) ∧
  outcome (parse_info_file f self) = Ok tt.
Proof. apply info_records_run. Qed.

Lemma parse_info_file_records_witness :
  state (parse_info_file
           ["Name: foo"; "Arch: x86_64"; "an URL: http://x"; "Name: bar";
            "Version: 2"] PkgDep_init) =
    state (for_each
             (info_records
                ["Name: foo"; "Arch: x86_64"; "an URL: http://x"; "Name: bar";
                 "Version: 2"] InfoVars_init) flush PkgDep_init) ∧
  outcome (parse_info_file
             ["Name: foo"; "Arch: x86_64"; "an URL: http://x"; "Name: bar";
              "Version: 2"] PkgDep_init) = Ok tt.
Proof.
  apply (parse_info_file_records
           ["Name: foo"; "Arch: x86_64"; "an URL: http://x"; "Name: bar";
            "Version: 2"] PkgDep_init).
  vm_compute. reflexivity.
Defined.

Example info_records_example :
  info_records
    ["Name: foo"; "Arch: x86_64"; "an URL: http://x"; "Name: bar"; "Version: 2"]
    InfoVars_init =
    [MkInfoVars "foo" "x86_64" UNDEFINED UNDEFINED UNDEFINED UNDEFINED;
     MkInfoVars "bar" UNDEFINED "2" UNDEFINED UNDEFINED UNDEFINED].
Proof. vm_compute. reflexivity. Qed.

(** X26: the effective dependency list cannot be read exactly when the key
    has no entry in the dependency map; the exception is then the
    [ValueError] of [get_dependency_list], for both values of the flag. *)
Theorem get_dep_list_raises_iff (self : PkgDep) (key : string)
    (include_all : bool) (e : exn) :
  get_dep_list self key include_all = Err e ↔
  dep self !! key = None ∧
  e = ValueError ("package " +:+ key +:+ " does not exist").
Proof.
  destruct (dep self !! key) as [deps|] eqn:Hdeps.
  - destruct (get_dep_list_declared self key deps include_all Hdeps)
      as (d_list & -> & _).
    split; [done|]. by intros [? _].
  - unfold get_dep_list, get_dependency_list. rewrite Hdeps. simpl.
    split; [by intros [= <-]|by intros [_ ->]].
Qed.
